(** * Owner tagging of newly created Azure resources

    A shallow embedding of [update-resource-metadata/__init__.py]: the
    Event Grid handler [main], the extraction of the creator's claims and
    of the resource path, the versioned resource lookup
    [call_until_valid_api] and the conditional tag write [assign_owner].

    Python values are an inductive type, exceptions are data, the Azure
    resource-management API is a state-passing oracle whose calls are
    recorded, and logging appends to a list. *)

From Stdlib Require Import String Ascii ZArith List Lia.
From stdpp Require Import gmap strings list fin_maps.

Local Open Scope string_scope.

Set Warnings "-register-all".

(** ** Python strings *)

Module PyStr.

(** [needle in hay] on two [str]: the substring test. *)
Fixpoint contains (needle hay : string) : bool :=
  String.prefix needle hay ||
  match hay with
  | EmptyString => false
  | String _ hay' => contains needle hay'
  end.

(** [hay.find(needle)]: the index of the first occurrence. *)
Fixpoint find (needle hay : string) : option nat :=
  if String.prefix needle hay then Some 0
  else match hay with
       | EmptyString => None
       | String _ hay' => S <$> find needle hay'
       end.

(** Puts one more character in front of the segment being read. *)
Definition push (c : ascii) (segs : list string) : list string :=
  match segs with
  | [] => [String c EmptyString]
  | seg :: segs' => String c seg :: segs'
  end.

(** The scan behind [s.split(sep)]: left to right, cutting at each
    occurrence of [sep] and resuming after it.  [skip] counts the
    characters of a matched separator that are still to be passed. *)
Fixpoint split_scan (sep : string) (skip : nat) (s : string) : list string :=
  match s with
  | EmptyString => [EmptyString]
  | String c s' =>
      match skip with
      | S k => split_scan sep k s'
      | O => if String.prefix sep s
             then EmptyString :: split_scan sep (String.length sep - 1) s'
             else push c (split_scan sep 0 s')
      end
  end.

(** [s.split(sep)] for a non-empty separator (every call site of the
    program passes a literal one). *)
Definition split (sep s : string) : list string := split_scan sep 0 s.

(** [sep.join(segs)]. *)
Definition join (sep : string) (segs : list string) : string :=
  String.concat sep segs.

(** The slice [s[n:]]. *)
Fixpoint slice_from (n : nat) (s : string) : string :=
  match n, s with
  | O, _ => s
  | S _, EmptyString => EmptyString
  | S n', String _ s' => slice_from n' s'
  end.

(** The slice [s[:n]]. *)
Fixpoint slice_to (n : nat) (s : string) : string :=
  match n, s with
  | O, _ => EmptyString
  | S _, EmptyString => EmptyString
  | S n', String c s' => String c (slice_to n' s')
  end.

End PyStr.

(** ** Python values, exceptions and results *)

(** The values the handler meets: what [event.get_json()] and
    [json.loads] produce, [None] included. *)
Inductive value : Type :=
| VNone
| VBool (b : bool)
| VInt (z : Z)
| VStr (s : string)
| VList (l : list value)
| VDict (d : gmap string value).

(** The exceptions of the program.  [HttpResponseError] carries what the
    handler reads of it: [error.status_code] and [error.response.text()].
    [ServiceRequestError] stands for the failures of the SDK that are not
    HTTP responses (network, credentials). *)
Inductive exn : Type :=
| HttpResponseError (status_code : Z) (text : string)
| ServiceRequestError (message : string)
| TypeError
| AttributeError
| IndexError
| KeyError (key : string)
| JSONDecodeError
| UnboundLocalError (name : string)
| RecursionError.

Inductive result (A : Type) : Type :=
| Ok (a : A)
| Raise (e : exn).
Arguments Ok {A} a.
Arguments Raise {A} e.

Definition result_bind {A B} (r : result A) (k : A → result B) : result B :=
  match r with
  | Ok a => k a
  | Raise e => Raise e
  end.

Declare Scope result_scope.
Delimit Scope result_scope with result.
Bind Scope result_scope with result.
Local Open Scope result_scope.

Notation "x <- r ;; k" := (result_bind r (fun x => k))
  (at level 100, r at next level, right associativity) : result_scope.

(** Truth value of a Python object ([if x], [x and y], [not x]). *)
Definition truthy (v : value) : bool :=
  match v with
  | VNone => false
  | VBool b => b
  | VInt z => negb (z =? 0)%Z
  | VStr s => negb (String.eqb s "")
  | VList l => match l with [] => false | _ => true end
  | VDict d => negb (bool_decide (d = ∅))
  end.

(** [key in container] for a [str] key. *)
Definition py_in (key : string) (container : value) : result bool :=
  match container with
  | VDict d => Ok (bool_decide (is_Some (d !! key)))
  | VList l =>
      Ok (existsb (fun x => match x with VStr s => String.eqb s key | _ => false end) l)
  | VStr s => Ok (PyStr.contains key s)
  | VNone | VBool _ | VInt _ => Raise TypeError
  end.

(** [container[key]] for a [str] key. *)
Definition getitem (container : value) (key : string) : result value :=
  match container with
  | VDict d => match d !! key with
               | Some v => Ok v
               | None => Raise (KeyError key)
               end
  | _ => Raise TypeError
  end.

(** [segs[i]] on a list. *)
Definition index {A} (segs : list A) (i : nat) : result A :=
  match segs !! i with
  | Some x => Ok x
  | None => Raise IndexError
  end.

(** [v.split(sep)]: only a [str] has the method. *)
Definition py_split (v : value) (sep : string) : result (list string) :=
  match v with
  | VStr s => Ok (PyStr.split sep s)
  | _ => Raise AttributeError
  end.

(** [v == s] for a [str] literal [s]. *)
Definition eq_str (v : value) (s : string) : bool :=
  match v with
  | VStr s' => String.eqb s' s
  | _ => false
  end.

(** ** The pure functions of the module *)

(** [extract_resource_path]: cuts the resource path to the resource name. *)
Definition extract_resource_path (path : value) : result string :=
  segs <- py_split path "/";;
  Ok (PyStr.join "/" (take 9 segs)).

(** [extract_subscription_id]: only the subscription id of the full path. *)
Definition extract_subscription_id (path : value) : result string :=
  segs <- py_split path "/";;
  index segs 2.

(** [extract_version_from_error_message]. *)
Definition extract_version_from_error_message (message : value) : result string :=
  parts <- py_split message "The supported api-versions are '";;
  versions <- index parts 1;;
  index (PyStr.split "," versions) 0.

Definition EMAIL_CLAIM_KEY : string :=
  "http://schemas.xmlsoap.org/ws/2005/05/identity/claims/name".
Definition ID_CLAIM_KEY : string :=
  "http://schemas.microsoft.com/identity/claims/objectidentifier".
Definition CLAIMS_KEY : string := "claims".
Definition RESOURCE_KEY : string := "resourceUri".

(** [None] or a [str], as a Python value. *)
Definition of_option (o : option string) : value :=
  match o with
  | None => VNone
  | Some s => VStr s
  end.

(** [extract_metadata]: [(id, email, resource)]; the resource is [None]
    or the [str] that [extract_resource_path] returns. *)
Definition extract_metadata (json : value) : result (value * value * option string) :=
  has_claims <- py_in CLAIMS_KEY json;;
  claims <-
    (if has_claims : bool then
       authorization_claims <- getitem json CLAIMS_KEY;;
       has_email <- py_in EMAIL_CLAIM_KEY authorization_claims;;
       email <- (if has_email : bool
                 then getitem authorization_claims EMAIL_CLAIM_KEY
                 else Ok VNone);;
       has_id <- py_in ID_CLAIM_KEY authorization_claims;;
       id <- (if has_id : bool
              then getitem authorization_claims ID_CLAIM_KEY
              else Ok VNone);;
       Ok (id, email)
     else Ok (VNone, VNone));;
  has_resource <- py_in RESOURCE_KEY json;;
  resource <-
    (if has_resource : bool then
       uri <- getitem json RESOURCE_KEY;;
       path <- extract_resource_path uri;;
       Ok (Some path)
     else Ok None);;
  let '(id, email) := claims in
  Ok (id, email, resource).

(** ** The Azure SDK and the effects of the handler *)

(** What the handler reads of the object [resources.get] returns: its
    [tags], which the SDK leaves [None] for a resource without tags. *)
Record GenericResource : Type := { tags : option (gmap string string) }.

(** [ResourceManagementClient(credential, subscription_id)]. *)
Record ResourceManagementClient : Type := { subscription_id : string }.

(** The calls made to the resource-management API, in order. *)
Inductive api_call : Type :=
| ResourcesGet (client : ResourceManagementClient)
    (resource_group_name resource_type resource_name api_version : string)
| TagsCreateOrUpdateAtScope (client : ResourceManagementClient)
    (scope : value) (parameters : value).

(** The records handed to [logging]. *)
Inductive log_record : Type :=
| LogError (message : string) (exc_info : exn)
| LogInfo (message : string).

Definition is_get (c : api_call) : bool :=
  match c with ResourcesGet _ _ _ _ _ => true | _ => false end.

Definition is_tag_write (c : api_call) : bool :=
  match c with TagsCreateOrUpdateAtScope _ _ _ => true | _ => false end.

(** The surroundings of the handler: the cloud behind the SDK (any state,
    deterministic answers), [json.loads], and the number of nested calls
    the interpreter still allows before it raises [RecursionError]. *)
Class Env : Type := {
  world : Type;
  resources_get :
    world → ResourceManagementClient → string → string → string → string →
    world * result GenericResource;
  tags_create_or_update_at_scope :
    world → ResourceManagementClient → value → value → world * result unit;
  json_loads : string → result value;
  recursion_limit : nat
}.

Section Handler.

Context {env : Env}.

Record state : Type := {
  cloud : world;
  calls : list api_call;
  logs : list log_record
}.

(** A computation with effects on the cloud, the call record and the log,
    ending in a value or an exception. *)
Definition M (A : Type) : Type := state → state * result A.

Definition ret {A} (a : A) : M A := fun st => (st, Ok a).

Definition raise {A} (e : exn) : M A := fun st => (st, Raise e).

Definition lift {A} (r : result A) : M A := fun st => (st, r).

Definition bind {A B} (m : M A) (k : A → M B) : M B :=
  fun st =>
    match m st with
    | (st', Ok a) => k a st'
    | (st', Raise e) => (st', Raise e)
    end.

(** [try: m  except ... as e: handler e]. *)
Definition try_except {A} (m : M A) (handler : exn → M A) : M A :=
  fun st =>
    match m st with
    | (st', Ok a) => (st', Ok a)
    | (st', Raise e) => handler e st'
    end.

(** [try: m  finally: final]. *)
Definition try_finally {A} (m : M A) (final : M unit) : M A :=
  fun st =>
    match m st with
    | (st', r) =>
        match final st' with
        | (st'', Ok _) => (st'', r)
        | (st'', Raise e) => (st'', Raise e)
        end
    end.

Notation "x <~ m ;; k" := (bind m (fun x => k))
  (at level 100, m at next level, right associativity).

(** [resource_client.resources.get(...)]. *)
Definition get (client : ResourceManagementClient)
    (resource_group_name resource_type resource_name api_version : string)
    : M GenericResource :=
  fun st =>
    let '(w, r) := resources_get (cloud st) client resource_group_name
                     resource_type resource_name api_version in
    ({| cloud := w;
        calls := calls st ++ [ResourcesGet client resource_group_name
                                resource_type resource_name api_version];
        logs := logs st |}, r).

(** [resource_client.tags.create_or_update_at_scope(scope, parameters)]. *)
Definition create_or_update_at_scope (client : ResourceManagementClient)
    (scope parameters : value) : M unit :=
  fun st =>
    let '(w, r) := tags_create_or_update_at_scope (cloud st) client scope parameters in
    ({| cloud := w;
        calls := calls st ++ [TagsCreateOrUpdateAtScope client scope parameters];
        logs := logs st |}, r).

Definition logging (r : log_record) : M unit :=
  fun st =>
    ({| cloud := cloud st; calls := calls st; logs := logs st ++ [r] |}, Ok tt).

Definition API_VERSION : string := "2021-04-01".

(** [api_version if api_version else API_VERSION]; [None] and the empty
    string are both false. *)
Definition version_given (api_version : option string) : bool :=
  truthy (of_option api_version).

(** [call_until_valid_api]; [depth] bounds the nesting of its calls. *)
Fixpoint call_until_valid_api (depth : nat)
    (resource_client : ResourceManagementClient)
    (resource_group_name resource_type resource_name : string)
    (api_version : option string) : M (option GenericResource) :=
  match depth with
  | O => raise RecursionError
  | S depth' =>
      try_except
        (r <~ get resource_client resource_group_name resource_type resource_name
                (if version_given api_version
                 then default API_VERSION api_version
                 else API_VERSION);;
         ret (Some r))
        (fun error =>
           match error with
           | HttpResponseError status_code text =>
               if version_given api_version then raise error
               else if (status_code =? 400)%Z then
                 error_json <~ lift (json_loads text);;
                 err <~ lift (getitem error_json "error");;
                 code <~ lift (getitem err "code");;
                 if eq_str code "NoRegisteredProviderFound" then
                   err' <~ lift (getitem error_json "error");;
                   message <~ lift (getitem err' "message");;
                   version <~ lift (extract_version_from_error_message message);;
                   call_until_valid_api depth' resource_client resource_group_name
                     resource_type resource_name (Some version)
                 else ret None
               else ret None
           | _ => raise error
           end)
  end.

Definition USER_ID_TAG_NAME : string := "owner_id".
Definition EMAIL_TAG_NAME : string := "owner_email".

(** [azure_resource.tags] on what the lookup returned. *)
Definition getattr_tags (azure_resource : option GenericResource)
    : result (option (gmap string string)) :=
  match azure_resource with
  | Some r => Ok (tags r)
  | None => Raise AttributeError
  end.

(** [key not in tags]. *)
Definition not_in (key : string) (t : option (gmap string string)) : result bool :=
  match t with
  | Some d => Ok (negb (bool_decide (is_Some (d !! key))))
  | None => Raise TypeError
  end.

(** Truth value of [azure_resource.tags]: [None] and [{}] are false. *)
Definition tags_truthy (t : option (gmap string string)) : bool :=
  match t with
  | Some d => negb (bool_decide (d = ∅))
  | None => false
  end.

(** The condition of the write in [assign_owner]:
    [azure_resource and not azure_resource.tags or
     (USER_ID_TAG_NAME not in azure_resource.tags and
      EMAIL_TAG_NAME not in azure_resource.tags)],
    with the short-circuit order of [and] and [or]. *)
Definition owner_tags_absent (azure_resource : option GenericResource) : result bool :=
  let left_operand :=
    match azure_resource with
    | None => false
    | Some r => negb (tags_truthy (tags r))
    end in
  if left_operand then Ok true
  else
    t <- getattr_tags azure_resource;;
    no_id <- not_in USER_ID_TAG_NAME t;;
    if no_id : bool then
      t' <- getattr_tags azure_resource;;
      not_in EMAIL_TAG_NAME t'
    else Ok false.

(** The tag map [assign_owner] builds. *)
Definition owner_tags (user_id email : value) : gmap string value :=
  {[ USER_ID_TAG_NAME := user_id;
     EMAIL_TAG_NAME := if truthy email then email else VStr "ManagedIdentity" ]}.

(** [{"properties": {"tags": tags}}]. *)
Definition tags_parameters (tags : gmap string value) : value :=
  VDict {[ "properties" := VDict {[ "tags" := VDict tags ]} ]}.

(** Lines 65 to 70 of [assign_owner]: the client for the subscription of
    the path, and the resource group, type and name the lookup is given. *)
Definition lookup_target (resource : value)
    : result (ResourceManagementClient * string * string * string) :=
  subscription <- extract_subscription_id resource;;
  let resource_client := {| subscription_id := subscription |} in
  path <- py_split resource "/";;
  resource_group_name <- index path 4;;
  namespace <- index path 6;;
  kind <- index path 7;;
  let resource_type := namespace +:+ "/" +:+ kind in
  resource_name <- index path 8;;
  Ok (resource_client, resource_group_name, resource_type, resource_name).

(** [assign_owner]. *)
Definition assign_owner (user_id email resource : value) : M unit :=
  let tags := owner_tags user_id email in
  target <~ lift (lookup_target resource);;
  let '(resource_client, resource_group_name, resource_type, resource_name) := target in
  azure_resource <~ call_until_valid_api recursion_limit resource_client
                      resource_group_name resource_type resource_name None;;
  absent <~ lift (owner_tags_absent azure_resource);;
  if absent : bool
  then create_or_update_at_scope resource_client resource (tags_parameters tags)
  else ret tt.

Definition IGNORED_RESOURCES : list string :=
  [ "Microsoft.Resources/deployments"; "Microsoft.Resources/tags" ].

(** [any([ignored_resource in resource for ignored_resource in
    IGNORED_RESOURCES])]: the list is built in full before [any] reads it. *)
Fixpoint ignored_flags (ignored : list string) (resource : value) : result (list bool) :=
  match ignored with
  | [] => Ok []
  | ignored_resource :: rest =>
      flag <- py_in ignored_resource resource;;
      flags <- ignored_flags rest resource;;
      Ok (flag :: flags)
  end.

(** [any(flags)]. *)
Definition any (flags : list bool) : bool := existsb (fun flag => flag) flags.

(** [f"{resource}"] for the [None] or [str] that [resource] holds. *)
Definition format_resource (resource : option string) : string :=
  match resource with
  | None => "None"
  | Some s => s
  end.

Definition error_message (resource : option string) : string :=
  "Error happened during runtime. With resource: " +:+ format_resource resource.

Definition info_message : string := "Python event trigger function ran at %s".

(** The [try] block of [main] after the tuple assignment. *)
Definition process (id email : value) (resource : option string) : M unit :=
  flags <~ lift (ignored_flags IGNORED_RESOURCES (of_option resource));;
  if any flags then ret tt
  else assign_owner id email (of_option resource).

(** [main], on [event.get_json()].  The local [resource] is bound by the
    tuple assignment only: when [extract_metadata] raises, the handler's
    f-string reads an unbound local. *)
Definition main (event_json : value) : M unit :=
  try_finally
    (match extract_metadata event_json with
     | Ok (id, email, resource) =>
         try_except (process id email resource)
           (fun err => logging (LogError (error_message resource) err))
     | Raise err => raise (UnboundLocalError "resource")
     end)
    (logging (LogInfo info_message)).

End Handler.

(** The tag writes among recorded calls. *)
Definition tag_writes (cs : list api_call) : list api_call := filter (fun c => is_tag_write c = true) cs.

(** The state after one more recorded lookup. *)
Definition after_get {env : Env} (st : state) (w : world)
    (client : ResourceManagementClient)
    (resource_group_name resource_type resource_name api_version : string) : state :=
  {| cloud := w;
     calls := calls st ++ [ResourcesGet client resource_group_name resource_type
                             resource_name api_version];
     logs := logs st |}.

(** The state after one more log record. *)
Definition after_log {env : Env} (st : state) (r : log_record) : state :=
  {| cloud := cloud st; calls := calls st; logs := logs st ++ [r] |}.

(** From [st] to [st'] only lookups were made and nothing was logged. *)
Definition only_lookups {env : Env} (st st' : state) : Prop :=
  logs st' = logs st ∧
  ∃ gets, calls st' = (calls st ++ gets)%list ∧ Forall (fun c => is_get c = true) gets.

(** ** A small cloud for concrete runs *)

Module Demo.

Definition quote : string := String "034"%char EmptyString.

Definition nrpf_message : string :=
  "No registered resource provider found for location 'westeurope' and API version '2021-04-01' for type 'virtualMachines'. The supported api-versions are '2015-05-01-preview, 2015-06-15, 2016-03-30'. The supported locations are 'westeurope, northeurope'.".

(** The body of a 400 response with the given message, as sent. *)
Definition nrpf_body (message : string) : string :=
  "{" +:+ quote +:+ "error" +:+ quote +:+ ": {" +:+
  quote +:+ "code" +:+ quote +:+ ": " +:+
  quote +:+ "NoRegisteredProviderFound" +:+ quote +:+ ", " +:+
  quote +:+ "message" +:+ quote +:+ ": " +:+
  quote +:+ message +:+ quote +:+ "}}".

(** The same body, parsed. *)
Definition nrpf_parsed (message : string) : value :=
  VDict {[ "error" :=
             VDict {[ "code" := VStr "NoRegisteredProviderFound";
                      "message" := VStr message ]} ]}.

Definition nrpf_text : string := nrpf_body nrpf_message.

Definition nrpf_json : value := nrpf_parsed nrpf_message.

(** A message whose list of versions starts with an empty item. *)
Definition blank_message : string :=
  "No registered resource provider found. The supported api-versions are ', 2015-06-15'.".

Definition blank_text : string := nrpf_body blank_message.

(** [json.loads] on the bodies this cloud sends. *)
Definition loads (text : string) : result value :=
  if String.eqb text nrpf_text then Ok nrpf_json
  else if String.eqb text blank_text then Ok (nrpf_parsed blank_message)
  else Raise JSONDecodeError.

(** A cloud without state whose lookup answers by api version alone and
    whose tag write succeeds. *)
Definition cloud_of (answer : string → result GenericResource) : Env := {|
  world := unit;
  resources_get := fun w _ _ _ _ api_version => (w, answer api_version);
  tags_create_or_update_at_scope := fun w _ _ _ => (w, Ok tt);
  json_loads := loads;
  recursion_limit := 1000
|}.

(** A provider that knows the resource under the listed versions only. *)
Definition versioned (found : GenericResource) (api_version : string)
    : result GenericResource :=
  if String.eqb api_version "2015-05-01-preview" then Ok found
  else Raise (HttpResponseError 400 nrpf_text).

(** A provider that rejects every version, the listed ones too. *)
Definition rejecting (api_version : string) : result GenericResource :=
  Raise (HttpResponseError 400 nrpf_text).

(** A provider that rejects every version and lists none to fall back on. *)
Definition blank (api_version : string) : result GenericResource :=
  Raise (HttpResponseError 400 blank_text).

(** A lookup that fails with 404 for a resource that is gone. *)
Definition missing (api_version : string) : result GenericResource :=
  Raise (HttpResponseError 404 "ResourceNotFound").

(** A provider that knows the resource under the default version. *)
Definition current (found : GenericResource) (api_version : string)
    : result GenericResource :=
  if String.eqb api_version "2021-04-01" then Ok found
  else Raise (HttpResponseError 400 nrpf_text).

Definition untagged : GenericResource := {| tags := None |}.

Definition owned : GenericResource :=
  {| tags := Some {[ "owner_id" := "0000-1111" ]} |}.

Definition start {env : Env} (w : world) : state :=
  {| cloud := w; calls := []; logs := [] |}.

(** The state a run on [cloud_of answer] starts from. *)
Definition fresh (answer : string → result GenericResource) : @state (cloud_of answer) :=
  @start (cloud_of answer) tt.

(** The state such a run ends in. *)
Definition final (answer : string → result GenericResource)
    (cs : list api_call) (ls : list log_record) : @state (cloud_of answer) :=
  @Build_state (cloud_of answer) tt cs ls.

Definition vm_path : string :=
  "/subscriptions/S/resourceGroups/G/providers/Microsoft.Compute/virtualMachines/VM1".

Definition vm_client : ResourceManagementClient := {| subscription_id := "S" |}.

Definition vm_type : string := "Microsoft.Compute/virtualMachines".

Definition vm_get (api_version : string) : api_call :=
  ResourcesGet vm_client "G" vm_type "VM1" api_version.

Definition vm_tag_write (user_id email : value) : api_call :=
  TagsCreateOrUpdateAtScope vm_client (VStr vm_path)
    (tags_parameters {[ "owner_id" := user_id; "owner_email" := email ]}).

(** An event of a user who created the virtual machine. *)
Definition user_event : value :=
  VDict {[ "claims" := VDict {[ EMAIL_CLAIM_KEY := VStr "ada@example.org";
                                ID_CLAIM_KEY := VStr "0000-2222" ]};
           "resourceUri" := VStr (vm_path +:+ "/extensions/E") ]}.

(** The event of a creator whose name claim is present and empty. *)
Definition nameless_event : value :=
  VDict {[ "claims" := VDict {[ EMAIL_CLAIM_KEY := VStr "";
                                ID_CLAIM_KEY := VStr "0000-2222" ]};
           "resourceUri" := VStr vm_path ]}.


(** An event without a resource. *)
Definition detached_event : gmap string value :=
  {[ "claims" := VDict {[ ID_CLAIM_KEY := VStr "0000-2222" ]} ]}.

(** An event whose claims are [null]. *)
Definition null_claims_event : value :=
  VDict {[ "claims" := VNone; "resourceUri" := VStr vm_path ]}.

(** A deployment, which the handler ignores. *)
Definition deployment_path : string :=
  "/subscriptions/S/resourceGroups/G/providers/Microsoft.Resources/deployments/D1".

Definition deployment_event : value :=
  VDict {[ "claims" := VDict {[ ID_CLAIM_KEY := VStr "0000-2222" ]};
           "resourceUri" := VStr deployment_path ]}.

(** A resource of another namespace whose type is also called deployments. *)
Definition custom_path : string :=
  "/subscriptions/S/resourceGroups/G/providers/Contoso.Resources/deployments/D1".

Definition custom_event : value :=
  VDict {[ "claims" := VDict {[ ID_CLAIM_KEY := VStr "0000-2222" ]};
           "resourceUri" := VStr custom_path ]}.

Definition custom_client : ResourceManagementClient := {| subscription_id := "S" |}.

End Demo.

(** ** More clouds, and what a cloud may promise *)

(** The text that precedes the versions in the provider's message. *)
Definition VERSIONS_MARKER : string := "The supported api-versions are '".

(** A cloud remembers tags when, after a tag write at the scope of a
    resource succeeded, the lookup of that resource under the default
    version succeeds without changing the cloud and returns tags with the
    keys that were written. *)
Definition remembers_tags (env : Env) : Prop :=
  ∀ (w w1 : world) client scope (written : gmap string value) rg rt rn,
    tags_create_or_update_at_scope w client scope (tags_parameters written) = (w1, Ok tt) →
    lookup_target scope = Ok (client, rg, rt, rn) →
    ∃ found (d : gmap string string),
      resources_get w1 client rg rt rn API_VERSION = (w1, Ok found) ∧
      tags found = Some d ∧ dom d = dom written.

Module Clouds.

(** A parsed error body. *)
Definition error_body (code message : string) : value :=
  VDict {[ "error" := VDict {[ "code" := VStr code; "message" := VStr message ]} ]}.

(** A cloud without state whose lookup answers by api version alone, whose
    error bodies all parse to [body] and whose tag write succeeds. *)
Definition answering (body : result value) (answer : string → result GenericResource)
    : Env := {|
  world := unit;
  resources_get := fun w _ _ _ _ api_version => (w, answer api_version);
  tags_create_or_update_at_scope := fun w _ _ _ => (w, Ok tt);
  json_loads := fun _ => body;
  recursion_limit := 1000
|}.

Definition begin (env : Env) (w : world) : state :=
  {| cloud := w; calls := []; logs := [] |}.

Definition ending (env : Env) (w : world) (cs : list api_call) (ls : list log_record)
    : state :=
  {| cloud := w; calls := cs; logs := ls |}.

(** The tag value the cloud stores for a written value. *)
Definition render (v : value) : string :=
  match v with
  | VStr s => s
  | _ => ""
  end.

(** The tag map inside [{"properties": {"tags": tags}}]. *)
Definition written_tags (parameters : value) : option (gmap string value) :=
  match parameters with
  | VDict p =>
      match p !! "properties" with
      | Some (VDict q) =>
          match q !! "tags" with
          | Some (VDict t) => Some t
          | _ => None
          end
      | _ => None
      end
  | _ => None
  end.

(** A cloud that holds one resource and keeps the tags written to it. *)
Definition keeping : Env := {|
  world := option (gmap string string);
  resources_get := fun w _ _ _ _ _ => (w, Ok {| tags := w |});
  tags_create_or_update_at_scope := fun w _ _ parameters =>
    match written_tags parameters with
    | Some t => (Some (render <$> t), Ok tt)
    | None => (w, Raise (HttpResponseError 400 "InvalidRequestContent"))
    end;
  json_loads := fun _ => Raise JSONDecodeError;
  recursion_limit := 1000
|}.

(** A lookup that fails below HTTP. *)
Definition unreachable (api_version : string) : result GenericResource :=
  Raise (ServiceRequestError "connection reset").

(** A lookup that always fails with a 400 response. *)
Definition refusing (api_version : string) : result GenericResource :=
  Raise (HttpResponseError 400 "body").

(** A cloud that answers 400 with another error code. *)
Definition other_code : Env :=
  answering (Ok (error_body "InvalidApiVersionParameter" "bad version")) refusing.

(** A cloud that cannot be reached. *)
Definition offline : Env := answering (Raise JSONDecodeError) unreachable.

(** A cloud whose 400 responses carry no JSON. *)
Definition garbled : Env := answering (Raise JSONDecodeError) refusing.

(** A provider that lists no versions. *)
Definition unlisted : Env :=
  answering (Ok (error_body "NoRegisteredProviderFound" "No provider.")) refusing.




(** A resource group, whose path has five segments. *)
Definition group_path : string := "/subscriptions/S/resourceGroups/G".

Definition group_event : value :=
  VDict {[ "claims" := VDict {[ ID_CLAIM_KEY := VStr "0000-2222" ]};
           "resourceUri" := VStr group_path ]}.

End Clouds.

(** ** Facts about [split] and [join] *)

Module PyStrFacts.
Import PyStr.

Lemma append_empty (s : string) : EmptyString +:+ s = s.
Proof. reflexivity. Qed.

Lemma append_cons (a : ascii) (s t : string) : String a s +:+ t = String a (s +:+ t).
Proof. reflexivity. Qed.

Lemma prefix_char (c a : ascii) (s : string) :
  String.prefix (String c EmptyString) (String a s) = bool_decide (c = a).
Proof.
  simpl. destruct (ascii_dec c a) as [->|Hne].
  - rewrite bool_decide_eq_true_2 by reflexivity. now destruct s.
  - now rewrite bool_decide_eq_false_2.
Qed.

(** One step of the scan for a separator of one character. *)
Lemma split_char_step (c a : ascii) (s : string) :
  split (String c EmptyString) (String a s) =
  if bool_decide (c = a)
  then EmptyString :: split (String c EmptyString) s
  else push a (split (String c EmptyString) s).
Proof.
  unfold split. cbn [split_scan]. rewrite prefix_char.
  now destruct (bool_decide (c = a)).
Qed.

Lemma split_scan_nonempty (sep : string) (s : string) (skip : nat) :
  split_scan sep skip s ≠ [].
Proof.
  revert skip. induction s as [|a s IH]; intros skip; cbn [split_scan].
  - discriminate.
  - destruct skip as [|k]; [|apply IH].
    destruct (String.prefix sep (String a s)); [discriminate|].
    specialize (IH 0). destruct (split_scan sep 0 s); [contradiction|discriminate].
Qed.

Lemma split_nonempty (sep s : string) : split sep s ≠ [].
Proof. apply split_scan_nonempty. Qed.

Lemma contains_char_cons (c a : ascii) (s : string) :
  contains (String c EmptyString) (String a s) =
  bool_decide (c = a) || contains (String c EmptyString) s.
Proof. cbn [contains]. now rewrite prefix_char. Qed.

Lemma contains_char_empty (c : ascii) :
  contains (String c EmptyString) EmptyString = false.
Proof. reflexivity. Qed.

(** No segment of a split holds the separator. *)
Lemma split_char_free (c : ascii) (s : string) :
  Forall (fun seg => contains (String c EmptyString) seg = false)
         (split (String c EmptyString) s).
Proof.
  induction s as [|a s IH].
  - repeat constructor.
  - rewrite split_char_step. case_bool_decide as Hca.
    + constructor; [reflexivity|exact IH].
    + destruct (split (String c EmptyString) s) as [|seg segs]; cbn [push].
      * repeat constructor. rewrite contains_char_cons, bool_decide_eq_false_2 by exact Hca.
        reflexivity.
      * inversion IH as [|? ? Hseg Hsegs]; subst. constructor; [|exact Hsegs].
        rewrite contains_char_cons, bool_decide_eq_false_2 by exact Hca. exact Hseg.
Qed.

(** A string without the separator is its own single segment. *)
Lemma split_char_whole (c : ascii) (s : string) :
  contains (String c EmptyString) s = false →
  split (String c EmptyString) s = [s].
Proof.
  induction s as [|a s IH]; [reflexivity|].
  rewrite contains_char_cons. intros H. apply orb_false_iff in H as [Hca Hs].
  rewrite split_char_step, Hca, (IH Hs). reflexivity.
Qed.

(** Splitting cuts at the first separator after a segment free of it. *)
Lemma split_char_app (c : ascii) (seg rest : string) :
  contains (String c EmptyString) seg = false →
  split (String c EmptyString) (seg +:+ String c rest) =
  seg :: split (String c EmptyString) rest.
Proof.
  induction seg as [|a seg IH]; intros H.
  - rewrite append_empty, split_char_step, bool_decide_eq_true_2 by reflexivity.
    reflexivity.
  - rewrite contains_char_cons in H. apply orb_false_iff in H as [Hca Hs].
    rewrite append_cons, split_char_step, Hca, (IH Hs). reflexivity.
Qed.

(** [sep.join(segs).split(sep)] gives [segs] back when no segment holds
    the separator. *)
Lemma split_join_char (c : ascii) (segs : list string) :
  segs ≠ [] →
  Forall (fun seg => contains (String c EmptyString) seg = false) segs →
  split (String c EmptyString) (join (String c EmptyString) segs) = segs.
Proof.
  induction segs as [|seg segs IH]; [contradiction|].
  intros _ Hfree. inversion Hfree as [|? ? Hseg Hsegs]; subst.
  destruct segs as [|seg' segs].
  - cbn. now apply split_char_whole.
  - change (join (String c EmptyString) (seg :: seg' :: segs))
      with (seg +:+ String c (join (String c EmptyString) (seg' :: segs))).
    rewrite split_char_app by exact Hseg. f_equal. apply IH; [discriminate|exact Hsegs].
Qed.

(** [sep.join(s.split(sep))] is [s]. *)
Lemma join_split_char (c : ascii) (s : string) :
  join (String c EmptyString) (split (String c EmptyString) s) = s.
Proof.
  induction s as [|a s IH]; [reflexivity|].
  rewrite split_char_step. case_bool_decide as Hca.
  - subst a. pose proof (split_nonempty (String c EmptyString) s) as Hne.
    destruct (split (String c EmptyString) s) as [|seg segs]; [contradiction|].
    change (join (String c EmptyString) (EmptyString :: seg :: segs))
      with (String c (join (String c EmptyString) (seg :: segs))).
    now rewrite IH.
  - pose proof (split_nonempty (String c EmptyString) s) as Hne.
    destruct (split (String c EmptyString) s) as [|seg segs]; [contradiction|].
    cbn [push]. rewrite <- IH. destruct segs; reflexivity.
Qed.

(** Truncating the segments and joining them again gives a path whose
    segments are the truncated ones. *)
Lemma split_join_take (c : ascii) (n : nat) (s : string) :
  split (String c EmptyString)
        (join (String c EmptyString) (take (S n) (split (String c EmptyString) s))) =
  take (S n) (split (String c EmptyString) s).
Proof.
  apply split_join_char.
  - pose proof (split_nonempty (String c EmptyString) s) as Hne.
    destruct (split (String c EmptyString) s); [contradiction|discriminate].
  - apply Forall_take, split_char_free.
Qed.

End PyStrFacts.

(** ** [split] against [find] *)

Module PySplitSpec.
Import PyStr PyStrFacts.

Lemma prefix_slice (sep s : string) :
  String.prefix sep s = true → s = sep +:+ slice_from (String.length sep) s.
Proof.
  revert s. induction sep as [|c sep IH]; intros s H; [reflexivity|].
  destruct s as [|a s]; [discriminate|].
  cbn [String.prefix] in H. destruct (ascii_dec c a) as [->|]; [|discriminate].
  rewrite append_cons. cbn [String.length slice_from]. f_equal. now apply IH.
Qed.

(** Passing the rest of a matched separator. *)
Lemma split_scan_skip (sep x rest : string) :
  split_scan sep (String.length x) (x +:+ rest) = split_scan sep 0 rest.
Proof.
  induction x as [|a x IH]; [reflexivity|].
  rewrite append_cons. cbn [String.length split_scan]. exact IH.
Qed.

Lemma split_match (sep s : string) :
  sep ≠ EmptyString →
  String.prefix sep s = true →
  split sep s = EmptyString :: split sep (slice_from (String.length sep) s).
Proof.
  intros Hsep Hpre. destruct sep as [|c sep]; [contradiction|].
  destruct s as [|a s]; [discriminate|].
  unfold split. cbn [split_scan]. rewrite Hpre. f_equal.
  cbn [String.prefix] in Hpre. destruct (ascii_dec c a); [|discriminate].
  change (String.length (String c sep) - 1) with (String.length sep - 0).
  rewrite Nat.sub_0_r. cbn [String.length slice_from].
  rewrite (prefix_slice sep s Hpre) at 1. apply split_scan_skip.
Qed.

Lemma split_no_match (sep : string) (a : ascii) (s : string) :
  String.prefix sep (String a s) = false →
  split sep (String a s) = push a (split sep s).
Proof. intros H. unfold split. cbn [split_scan]. now rewrite H. Qed.

(** [s.split(sep)] cuts at the first occurrence of [sep] and goes on
    after it; without an occurrence the string is the only segment. *)
Theorem split_find (sep s : string) :
  sep ≠ EmptyString →
  split sep s =
  match find sep s with
  | None => [s]
  | Some n => slice_to n s :: split sep (slice_from (n + String.length sep) s)
  end.
Proof.
  intros Hsep. induction s as [|a s IH].
  - destruct sep; [contradiction|reflexivity].
  - cbn [find]. destruct (String.prefix sep (String a s)) eqn:Hpre.
    + now rewrite split_match.
    + rewrite split_no_match by exact Hpre. rewrite IH.
      destruct (find sep s) as [n|]; reflexivity.
Qed.

Lemma split_find_witness :
  "/"%string ≠ EmptyString ∧
  split "/" "a/b" = ["a"; "b"]%string.
Proof.
  split; [discriminate|].
  rewrite (split_find "/" "a/b"); [reflexivity|discriminate].
Defined.

End PySplitSpec.

(** ** The resource path and its fields *)

Lemma extract_resource_path_str (path : string) :
  extract_resource_path (VStr path) =
  Ok (PyStr.join "/" (take 9 (PyStr.split "/" path))).
Proof. reflexivity. Qed.

(** The truncated path splits into the first nine segments of the full one. *)
Lemma split_extract_resource_path (path resource : string) :
  extract_resource_path (VStr path) = Ok resource →
  PyStr.split "/" resource = take 9 (PyStr.split "/" path).
Proof.
  rewrite extract_resource_path_str. intros [= <-].
  apply (PyStrFacts.split_join_take "/" 8 path).
Qed.

Lemma index_lookup {A} (segs : list A) (i : nat) (x : A) :
  segs !! i = Some x → index segs i = Ok x.
Proof. unfold index. now intros ->. Qed.

Lemma index_take {A} (segs : list A) (n i : nat) :
  i < n → index (take n segs) i = index segs i.
Proof. intros H. unfold index. now rewrite lookup_take_lt. Qed.

(** C8. The resource path is truncated to its first nine slash-delimited
    segments, and the subscription id, the resource group, the resource
    type and the resource name handed to the lookup are the segments 2, 4,
    6 joined to 7 by a slash, and 8 of the path. *)
Theorem resource_path_fields (path s2 s4 s6 s7 s8 : string) :
  PyStr.split "/" path !! 2 = Some s2 →
  PyStr.split "/" path !! 4 = Some s4 →
  PyStr.split "/" path !! 6 = Some s6 →
  PyStr.split "/" path !! 7 = Some s7 →
  PyStr.split "/" path !! 8 = Some s8 →
  ∃ resource,
    extract_resource_path (VStr path) = Ok resource ∧
    PyStr.split "/" resource = take 9 (PyStr.split "/" path) ∧
    extract_subscription_id (VStr resource) = Ok s2 ∧
    lookup_target (VStr resource) =
      Ok ({| subscription_id := s2 |}, s4, s6 +:+ "/" +:+ s7, s8).
Proof.
  intros H2 H4 H6 H7 H8.
  exists (PyStr.join "/" (take 9 (PyStr.split "/" path))).
  pose proof (split_extract_resource_path path _ (extract_resource_path_str path)) as Hsplit.
  assert (Hsub : extract_subscription_id
                   (VStr (PyStr.join "/" (take 9 (PyStr.split "/" path)))) = Ok s2).
  { unfold extract_subscription_id, py_split. cbn [result_bind].
    rewrite Hsplit, index_take by lia. now apply index_lookup. }
  repeat split; [exact Hsplit|exact Hsub|].
  unfold lookup_target. rewrite Hsub. unfold py_split. cbn [result_bind].
  rewrite Hsplit, !index_take by lia.
  rewrite (index_lookup _ _ _ H4), (index_lookup _ _ _ H6),
    (index_lookup _ _ _ H7), (index_lookup _ _ _ H8).
  reflexivity.
Qed.

(** The path of the specification's example. *)
Lemma resource_path_fields_example :
  let path := "/subscriptions/S/resourceGroups/G/providers/Microsoft.Compute/virtualMachines/VM1/extra" in
  ∃ resource,
    extract_resource_path (VStr path) = Ok resource ∧
    PyStr.split "/" resource = take 9 (PyStr.split "/" path) ∧
    extract_subscription_id (VStr resource) = Ok "S" ∧
    lookup_target (VStr resource) =
      Ok ({| subscription_id := "S" |}, "G", "Microsoft.Compute/virtualMachines", "VM1").
Proof.
  apply (resource_path_fields
           "/subscriptions/S/resourceGroups/G/providers/Microsoft.Compute/virtualMachines/VM1/extra"
           "S" "G" "Microsoft.Compute" "virtualMachines" "VM1"); reflexivity.
Defined.

(** ** The versioned lookup *)

Section Lookup.

Context {env : Env}.

Implicit Types (st : state) (client : ResourceManagementClient).

Lemma only_lookups_refl st : only_lookups st st.
Proof. split; [reflexivity|]. exists []. now rewrite app_nil_r. Qed.

Lemma only_lookups_get st w client rg rt rn v :
  only_lookups st (after_get st w client rg rt rn v).
Proof.
  split; [reflexivity|]. eexists. split; [reflexivity|]. now repeat constructor.
Qed.

Lemma only_lookups_trans st1 st2 st3 :
  only_lookups st1 st2 → only_lookups st2 st3 → only_lookups st1 st3.
Proof.
  intros [Hl1 (g1 & Hc1 & Hg1)] [Hl2 (g2 & Hc2 & Hg2)]. split; [congruence|].
  exists (g1 ++ g2)%list. split; [|now apply Forall_app].
  now rewrite Hc2, Hc1, app_assoc.
Qed.

Lemma tag_writes_only_lookups st st' :
  only_lookups st st' → tag_writes (calls st') = tag_writes (calls st).
Proof.
  intros [_ (gets & -> & Hgets)]. unfold tag_writes. rewrite filter_app.
  assert (filter (λ c, is_tag_write c = true) gets = []) as ->.
  { induction Hgets as [|c gets Hc _ IH]; [reflexivity|].
    rewrite filter_cons_False; [exact IH|]. destruct c; [discriminate|discriminate Hc]. }
  apply app_nil_r.
Qed.

(** The version a call asks for. *)
Lemma asked_version_none : version_given None = false.
Proof. reflexivity. Qed.

Lemma asked_version_some (v : string) :
  v ≠ EmptyString → version_given (Some v) = true.
Proof. intros H. destruct v; [contradiction|reflexivity]. Qed.

(** A lookup that succeeds returns what [resources.get] returned. *)
Lemma call_until_valid_api_found depth client rg rt rn v st w found :
  resources_get (cloud st) client rg rt rn
    (if version_given v then default API_VERSION v else API_VERSION) = (w, Ok found) →
  call_until_valid_api (S depth) client rg rt rn v st =
  (after_get st w client rg rt rn
     (if version_given v then default API_VERSION v else API_VERSION),
   Ok (Some found)).
Proof.
  intros H. cbn [call_until_valid_api]. unfold try_except, bind, get, ret.
  now rewrite H.
Qed.

(** With an explicit version every exception of [resources.get] leaves
    the function. *)
Lemma call_until_valid_api_explicit depth client rg rt rn (v : string) st w e :
  v ≠ EmptyString →
  resources_get (cloud st) client rg rt rn v = (w, Raise e) →
  call_until_valid_api (S depth) client rg rt rn (Some v) st =
  (after_get st w client rg rt rn v, Raise e).
Proof.
  intros Hv H. cbn [call_until_valid_api]. unfold try_except, bind, get, ret, raise.
  rewrite (asked_version_some v Hv). change (default API_VERSION (Some v)) with v.
  rewrite H. now destruct e.
Qed.

(** The calls of the lookup are lookups, whatever the cloud answers. *)
Lemma call_until_valid_api_only_lookups depth client rg rt rn v st :
  only_lookups st (call_until_valid_api depth client rg rt rn v st).1.
Proof.
  revert v st. induction depth as [|depth IH]; intros v st.
  - apply only_lookups_refl.
  - cbn [call_until_valid_api]. unfold try_except, bind, get, ret, raise, lift.
    destruct (resources_get _ _ _ _ _ _) as [w r].
    pose proof (only_lookups_get st w client rg rt rn
                  (if version_given v then default API_VERSION v else API_VERSION)) as Hget.
    unfold after_get in Hget.
    destruct r as [found|e]; [exact Hget|].
    destruct e; try exact Hget.
    destruct (version_given v); [exact Hget|].
    destruct (status_code =? 400)%Z; [|exact Hget].
    destruct (json_loads text) as [error_json|]; [|exact Hget].
    destruct (getitem error_json "error") as [err|]; [|exact Hget].
    destruct (getitem err "code") as [code|]; [|exact Hget].
    destruct (eq_str code "NoRegisteredProviderFound"); [|exact Hget].
    destruct (getitem err "message") as [message|]; [|exact Hget].
    destruct (extract_version_from_error_message message) as [version|]; [|exact Hget].
    eapply only_lookups_trans; [exact Hget|apply IH].
Qed.

(** Without an explicit version, an HTTP error whose status is not 400 is
    dropped: the function falls off its handler and returns [None]. *)
Lemma call_until_valid_api_drops_status depth client rg rt rn st w status text :
  status ≠ 400%Z →
  resources_get (cloud st) client rg rt rn API_VERSION =
    (w, Raise (HttpResponseError status text)) →
  call_until_valid_api (S depth) client rg rt rn None st =
  (after_get st w client rg rt rn API_VERSION, Ok None).
Proof.
  intros Hstatus H. cbn [call_until_valid_api]. unfold try_except, bind, get, ret.
  rewrite asked_version_none, H.
  now rewrite (proj2 (Z.eqb_neq status 400) Hstatus).
Qed.

(** The same for a 400 response with another error code. *)
Lemma call_until_valid_api_drops_code depth client rg rt rn st w text error_json err code :
  resources_get (cloud st) client rg rt rn API_VERSION =
    (w, Raise (HttpResponseError 400 text)) →
  json_loads text = Ok error_json →
  getitem error_json "error" = Ok err →
  getitem err "code" = Ok code →
  eq_str code "NoRegisteredProviderFound" = false →
  call_until_valid_api (S depth) client rg rt rn None st =
  (after_get st w client rg rt rn API_VERSION, Ok None).
Proof.
  intros H Hloads Herr Hcode Hne. cbn [call_until_valid_api].
  unfold try_except, bind, get, ret, lift.
  rewrite asked_version_none, H. cbn [Z.eqb Pos.eqb].
  now rewrite Hloads, Herr, Hcode, Hne.
Qed.

(** The retry, in terms of what [extract_version_from_error_message]
    returns: started without an api version, a lookup whose first answer
    is a 400 response with code NoRegisteredProviderFound and from whose
    message a non-empty version is read is retried exactly once, with the
    version read; the outcome of the retry is the outcome of the call. *)
Theorem call_until_valid_api_retries_once
    depth client rg rt rn st w1 text error_json err code message version w2 outcome :
  resources_get (cloud st) client rg rt rn API_VERSION =
    (w1, Raise (HttpResponseError 400 text)) →
  json_loads text = Ok error_json →
  getitem error_json "error" = Ok err →
  getitem err "code" = Ok code →
  eq_str code "NoRegisteredProviderFound" = true →
  getitem err "message" = Ok message →
  extract_version_from_error_message message = Ok version →
  version ≠ EmptyString →
  resources_get w1 client rg rt rn version = (w2, outcome) →
  call_until_valid_api (S (S depth)) client rg rt rn None st =
  ({| cloud := w2;
      calls := (calls st ++ [ResourcesGet client rg rt rn API_VERSION;
                             ResourcesGet client rg rt rn version])%list;
      logs := logs st |},
   match outcome with
   | Ok found => Ok (Some found)
   | Raise e => Raise e
   end).
Proof.
  intros Hfirst Hloads Herr Hcode Heq Hmsg Hversion Hne Hsecond.
  remember (S depth) as d eqn:Hd.
  cbn [call_until_valid_api]. unfold try_except at 1. unfold bind at 1, get at 1.
  rewrite asked_version_none, Hfirst. cbn [Z.eqb Pos.eqb].
  unfold bind, lift, ret. rewrite Hloads, Herr, Hcode, Heq, Hmsg, Hversion.
  subst d. destruct outcome as [found|e].
  - rewrite (call_until_valid_api_found depth client rg rt rn (Some version) _ w2 found).
    + rewrite (asked_version_some version Hne).
      change (default API_VERSION (Some version)) with version.
      unfold after_get. cbn [cloud calls logs]. now rewrite <- app_assoc.
    + rewrite (asked_version_some version Hne).
      change (default API_VERSION (Some version)) with version. exact Hsecond.
  - erewrite (call_until_valid_api_explicit depth client rg rt rn version _ w2 e Hne)
      by exact Hsecond.
    unfold after_get. cbn [cloud calls logs]. now rewrite <- app_assoc.
Qed.

End Lookup.

(** ** The tag write of [assign_owner] *)

Section Assign.

Context {env : Env}.

Implicit Types (st : state) (client : ResourceManagementClient)
  (user_id email resource : value) (found : GenericResource).

Lemma owner_tags_absent_none : owner_tags_absent None = Raise AttributeError.
Proof. reflexivity. Qed.

Lemma owner_tags_absent_untagged found :
  tags found = None → owner_tags_absent (Some found) = Ok true.
Proof. intros H. unfold owner_tags_absent. now rewrite H. Qed.

Lemma owner_tags_absent_lacking found (d : gmap string string) :
  tags found = Some d →
  d !! USER_ID_TAG_NAME = None → d !! EMAIL_TAG_NAME = None →
  owner_tags_absent (Some found) = Ok true.
Proof.
  intros H Hid Hemail. unfold owner_tags_absent. rewrite H. cbn [tags_truthy].
  destruct (bool_decide (d = ∅)); [reflexivity|].
  cbn [negb getattr_tags result_bind not_in]. rewrite H. cbn [result_bind not_in].
  rewrite Hid, Hemail.
  rewrite !bool_decide_eq_false_2 by (intros [? [=]]). reflexivity.
Qed.

Lemma owner_tags_absent_owned found (d : gmap string string) :
  tags found = Some d →
  is_Some (d !! USER_ID_TAG_NAME) ∨ is_Some (d !! EMAIL_TAG_NAME) →
  owner_tags_absent (Some found) = Ok false.
Proof.
  intros H Hany. unfold owner_tags_absent. rewrite H. cbn [tags_truthy].
  assert (d ≠ ∅) as Hne.
  { intros ->. destruct Hany as [[? Hx]|[? Hx]]; now rewrite lookup_empty in Hx. }
  rewrite bool_decide_eq_false_2 by exact Hne.
  cbn [negb getattr_tags result_bind not_in]. rewrite H. cbn [result_bind not_in].
  destruct (bool_decide (is_Some (d !! USER_ID_TAG_NAME))) eqn:Hid; [reflexivity|].
  cbn [negb]. apply bool_decide_eq_false in Hid.
  destruct Hany as [Hany|Hany]; [contradiction|].
  now rewrite bool_decide_eq_true_2.
Qed.

(** [assign_owner], stage by stage. *)
Lemma assign_owner_stages user_id email resource st :
  assign_owner user_id email resource st =
  match lookup_target resource with
  | Raise e => (st, Raise e)
  | Ok (client, rg, rt, rn) =>
      match call_until_valid_api recursion_limit client rg rt rn None st with
      | (st1, Raise e) => (st1, Raise e)
      | (st1, Ok azure_resource) =>
          match owner_tags_absent azure_resource with
          | Raise e => (st1, Raise e)
          | Ok true =>
              create_or_update_at_scope client resource
                (tags_parameters (owner_tags user_id email)) st1
          | Ok false => (st1, Ok tt)
          end
      end
  end.
Proof.
  unfold assign_owner, bind, lift, ret.
  destruct (lookup_target resource) as [[[[client rg] rt] rn]|e]; [|reflexivity].
  destruct (call_until_valid_api _ _ _ _ _ _ _) as [st1 [azure_resource|e]]; [|reflexivity].
  destruct (owner_tags_absent azure_resource) as [[|]|e]; reflexivity.
Qed.

Lemma tag_writes_create client scope parameters st :
  tag_writes (calls (create_or_update_at_scope client scope parameters st).1) =
  (tag_writes (calls st) ++ [TagsCreateOrUpdateAtScope client scope parameters])%list.
Proof.
  unfold create_or_update_at_scope.
  destruct (tags_create_or_update_at_scope _ _ _ _) as [w r]. cbn [fst calls].
  unfold tag_writes. now rewrite filter_app.
Qed.

Lemma logs_create client scope parameters st :
  logs (create_or_update_at_scope client scope parameters st).1 = logs st.
Proof.
  unfold create_or_update_at_scope.
  now destruct (tags_create_or_update_at_scope _ _ _ _) as [w r].
Qed.

(** [assign_owner] writes at most once, at the scope of the resource, the
    tag map built from its arguments; it logs nothing. *)
Lemma assign_owner_writes user_id email resource st :
  logs (assign_owner user_id email resource st).1 = logs st ∧
  ∃ ws, tag_writes (calls (assign_owner user_id email resource st).1) =
          (tag_writes (calls st) ++ ws)%list ∧
        (ws = [] ∨
         ∃ client, ws = [TagsCreateOrUpdateAtScope client resource
                           (tags_parameters (owner_tags user_id email))]).
Proof.
  rewrite assign_owner_stages.
  destruct (lookup_target resource) as [[[[client rg] rt] rn]|e].
  2:{ split; [reflexivity|]. exists []. rewrite app_nil_r. auto. }
  pose proof (call_until_valid_api_only_lookups recursion_limit client rg rt rn None st) as Hlook.
  destruct (call_until_valid_api _ _ _ _ _ _ _) as [st1 r]. cbn [fst] in Hlook.
  pose proof (tag_writes_only_lookups _ _ Hlook) as Hw. destruct Hlook as [Hlogs _].
  assert (Hquiet : logs st1 = logs st ∧
            ∃ ws, tag_writes (calls st1) = (tag_writes (calls st) ++ ws)%list ∧
              (ws = [] ∨
               ∃ client, ws = [TagsCreateOrUpdateAtScope client resource
                                 (tags_parameters (owner_tags user_id email))])).
  { split; [exact Hlogs|]. exists []. rewrite app_nil_r. auto. }
  destruct r as [azure_resource|e]; [|exact Hquiet].
  destruct (owner_tags_absent azure_resource) as [[|]|e]; try exact Hquiet.
  split; [now rewrite logs_create|].
  eexists. split; [rewrite tag_writes_create, Hw; reflexivity|]. right. now exists client.
Qed.

(** C4. When the resource the lookup returned already carries the tag
    owner_id or the tag owner_email, [assign_owner] returns without a tag
    write: the tag writes recorded after it are those recorded before. *)
Theorem assign_owner_keeps_owner user_id email resource st client rg rt rn st1 found
    (d : gmap string string) :
  lookup_target resource = Ok (client, rg, rt, rn) →
  call_until_valid_api recursion_limit client rg rt rn None st = (st1, Ok (Some found)) →
  tags found = Some d →
  is_Some (d !! "owner_id") ∨ is_Some (d !! "owner_email") →
  assign_owner user_id email resource st = (st1, Ok tt) ∧
  tag_writes (calls (assign_owner user_id email resource st).1) = tag_writes (calls st).
Proof.
  intros Htarget Hlookup Htags Hany.
  assert (Hrun : assign_owner user_id email resource st = (st1, Ok tt)).
  { rewrite assign_owner_stages, Htarget, Hlookup.
    now rewrite (owner_tags_absent_owned found d Htags Hany). }
  split; [exact Hrun|]. rewrite Hrun. cbn [fst].
  apply tag_writes_only_lookups.
  pose proof (call_until_valid_api_only_lookups recursion_limit client rg rt rn None st) as H.
  now rewrite Hlookup in H.
Qed.

(** C9. When the lookup returns no resource object, [assign_owner] ends
    with the AttributeError of reading its tags and
    [create_or_update_at_scope] is not called. *)
Theorem assign_owner_without_resource user_id email resource st client rg rt rn st1 :
  lookup_target resource = Ok (client, rg, rt, rn) →
  call_until_valid_api recursion_limit client rg rt rn None st = (st1, Ok None) →
  assign_owner user_id email resource st = (st1, Raise AttributeError) ∧
  tag_writes (calls (assign_owner user_id email resource st).1) = tag_writes (calls st).
Proof.
  intros Htarget Hlookup.
  assert (Hrun : assign_owner user_id email resource st = (st1, Raise AttributeError)).
  { now rewrite assign_owner_stages, Htarget, Hlookup. }
  split; [exact Hrun|]. rewrite Hrun. cbn [fst].
  apply tag_writes_only_lookups.
  pose proof (call_until_valid_api_only_lookups recursion_limit client rg rt rn None st) as H.
  now rewrite Hlookup in H.
Qed.

(** A tag write is made only after a lookup that produced a resource. *)
Lemma assign_owner_write_needs_resource user_id email resource st :
  tag_writes (calls (assign_owner user_id email resource st).1) ≠ tag_writes (calls st) →
  ∃ client rg rt rn st1 found,
    lookup_target resource = Ok (client, rg, rt, rn) ∧
    call_until_valid_api recursion_limit client rg rt rn None st = (st1, Ok (Some found)).
Proof.
  rewrite assign_owner_stages.
  destruct (lookup_target resource) as [[[[client rg] rt] rn]|e]; [|now intros []].
  pose proof (call_until_valid_api_only_lookups recursion_limit client rg rt rn None st) as Hlook.
  destruct (call_until_valid_api _ _ _ _ _ _ _) as [st1 r] eqn:Hrun. cbn [fst] in Hlook.
  pose proof (tag_writes_only_lookups _ _ Hlook) as Hw.
  destruct r as [[found|]|e]; [|now intros []..].
  intros _. now exists client, rg, rt, rn, st1, found.
Qed.

(** What [owner_tags] holds under its two keys. *)
Lemma owner_tags_id user_id email :
  owner_tags user_id email !! "owner_id" = Some user_id.
Proof. unfold owner_tags. now rewrite lookup_insert_eq. Qed.

Lemma owner_tags_email user_id email :
  owner_tags user_id email !! "owner_email" =
  Some (if truthy email then email else VStr "ManagedIdentity").
Proof.
  unfold owner_tags. rewrite lookup_insert_ne by discriminate.
  now rewrite lookup_singleton_eq.
Qed.

(** C5, as the code has it. When the resource the lookup returned has no
    tags, or tags without owner_id and owner_email, [assign_owner] makes
    one tag write at the scope of the resource, with owner_id the claim id
    and owner_email the claim email when that is a true value and the
    string ManagedIdentity when it is [None], empty or otherwise false. *)
Theorem assign_owner_tags_resource user_id email resource st client rg rt rn st1 found :
  lookup_target resource = Ok (client, rg, rt, rn) →
  call_until_valid_api recursion_limit client rg rt rn None st = (st1, Ok (Some found)) →
  tags found = None ∨
    (∃ d : gmap string string,
       tags found = Some d ∧ d !! "owner_id" = None ∧ d !! "owner_email" = None) →
  ∃ written : gmap string value,
    assign_owner user_id email resource st =
      create_or_update_at_scope client resource (tags_parameters written) st1 ∧
    tag_writes (calls (assign_owner user_id email resource st).1) =
      (tag_writes (calls st) ++
       [TagsCreateOrUpdateAtScope client resource (tags_parameters written)])%list ∧
    written !! "owner_id" = Some user_id ∧
    written !! "owner_email" =
      Some (if truthy email then email else VStr "ManagedIdentity") ∧
    dom written = {[ "owner_id"; "owner_email" ]}.
Proof.
  intros Htarget Hlookup Htags. exists (owner_tags user_id email).
  assert (Habsent : owner_tags_absent (Some found) = Ok true).
  { destruct Htags as [Hnone|(d & Hd & Hid & Hemail)].
    - now apply owner_tags_absent_untagged.
    - now apply (owner_tags_absent_lacking found d). }
  assert (Hrun : assign_owner user_id email resource st =
                 create_or_update_at_scope client resource
                   (tags_parameters (owner_tags user_id email)) st1).
  { now rewrite assign_owner_stages, Htarget, Hlookup, Habsent. }
  split; [exact Hrun|]. rewrite Hrun, tag_writes_create.
  pose proof (call_until_valid_api_only_lookups recursion_limit client rg rt rn None st) as H.
  rewrite Hlookup in H. cbn [fst] in H. rewrite (tag_writes_only_lookups _ _ H).
  split; [reflexivity|]. split; [apply owner_tags_id|]. split; [apply owner_tags_email|].
  unfold owner_tags. rewrite dom_insert_L, dom_singleton_L. reflexivity.
Qed.

End Assign.

(** ** Extraction from the event *)

Lemma py_in_present (d : gmap string value) (key : string) (v : value) :
  d !! key = Some v → py_in key (VDict d) = Ok true.
Proof. intros H. cbn [py_in]. now rewrite bool_decide_eq_true_2 by (rewrite H; eauto). Qed.

Lemma py_in_absent (d : gmap string value) (key : string) :
  d !! key = None → py_in key (VDict d) = Ok false.
Proof.
  intros H. cbn [py_in]. now rewrite bool_decide_eq_false_2 by (rewrite H; intros [? [=]]).
Qed.

Lemma getitem_present (d : gmap string value) (key : string) (v : value) :
  d !! key = Some v → getitem (VDict d) key = Ok v.
Proof. intros H. cbn [getitem]. now rewrite H. Qed.

(** One membership test or subscript of the extraction, on a map whose
    lookup is known. *)
Ltac extract_step :=
  first [ erewrite py_in_present by eassumption
        | rewrite py_in_absent by assumption
        | erewrite getitem_present by eassumption ];
  cbn [result_bind].


(** ** The top-level handler *)

Section Main.

Context {env : Env}.

Implicit Types (st : state) (event : value).

(** When extraction succeeds, [main] returns: whatever [process] raises is
    logged with the resource path, and the closing record is logged. *)
Lemma main_extracted event id email resource st :
  extract_metadata event = Ok (id, email, resource) →
  main event st =
  match process id email resource st with
  | (st1, Ok _) => (after_log st1 (LogInfo info_message), Ok tt)
  | (st1, Raise err) =>
      (after_log (after_log st1 (LogError (error_message resource) err))
         (LogInfo info_message), Ok tt)
  end.
Proof.
  intros H. unfold main, try_finally, try_except, logging. rewrite H.
  destruct (process id email resource st) as [st1 [[]|err]]; reflexivity.
Qed.

Lemma main_returns event id email resource st :
  extract_metadata event = Ok (id, email, resource) →
  (main event st).2 = Ok tt.
Proof.
  intros H. rewrite (main_extracted event id email resource st H).
  now destruct (process id email resource st) as [st1 [[]|err]].
Qed.

(** When extraction raises, the handler of [main] reads the local
    [resource] before it was bound, and that exception leaves [main]. *)
Lemma main_extraction_raises event err st :
  extract_metadata event = Raise err →
  main event st =
  (after_log st (LogInfo info_message), Raise (UnboundLocalError "resource")).
Proof. intros H. unfold main, try_finally, raise, logging. now rewrite H. Qed.

(** The ignore list applied to a path. *)
Lemma ignored_flags_path (path : string) :
  ignored_flags IGNORED_RESOURCES (VStr path) =
  Ok [ PyStr.contains "Microsoft.Resources/deployments" path;
       PyStr.contains "Microsoft.Resources/tags" path ].
Proof. reflexivity. Qed.

(** C6, with the ignore list of the code. An event whose extracted
    resource path contains Microsoft.Resources/deployments or
    Microsoft.Resources/tags is dropped: the cloud is not called, no error
    is logged, and [main] returns after its closing log record. *)
Theorem main_ignores_listed_resources event id email (path : string) st :
  extract_metadata event = Ok (id, email, Some path) →
  PyStr.contains "Microsoft.Resources/deployments" path = true ∨
    PyStr.contains "Microsoft.Resources/tags" path = true →
  main event st = (after_log st (LogInfo info_message), Ok tt) ∧
  cloud (main event st).1 = cloud st ∧
  calls (main event st).1 = calls st.
Proof.
  intros Hextract Hlisted.
  assert (Hrun : main event st = (after_log st (LogInfo info_message), Ok tt)).
  { rewrite (main_extracted event id email (Some path) st Hextract).
    unfold process, bind, lift, ret. cbn [of_option]. rewrite ignored_flags_path.
    assert (any [PyStr.contains "Microsoft.Resources/deployments" path;
                 PyStr.contains "Microsoft.Resources/tags" path] = true) as ->.
    { unfold any. cbn [existsb]. destruct Hlisted as [-> | ->]; [reflexivity|].
      now rewrite orb_true_r. }
    reflexivity. }
  now rewrite Hrun.
Qed.



(** The tag writes of [main]: at most one, the one of [assign_owner] on
    what was extracted from the event. *)
Lemma main_tag_writes event st :
  ∃ ws, tag_writes (calls (main event st).1) = (tag_writes (calls st) ++ ws)%list ∧
        (ws = [] ∨
         ∃ id email resource client,
           extract_metadata event = Ok (id, email, resource) ∧
           ws = [TagsCreateOrUpdateAtScope client (of_option resource)
                   (tags_parameters (owner_tags id email))]).
Proof.
  destruct (extract_metadata event) as [[[id email] resource]|err] eqn:Hextract.
  2:{ rewrite (main_extraction_raises event err st Hextract). exists [].
      cbn [fst after_log calls]. rewrite app_nil_r. auto. }
  rewrite (main_extracted event id email resource st Hextract).
  assert (Hprocess :
    ∃ ws, tag_writes (calls (process id email resource st).1) =
            (tag_writes (calls st) ++ ws)%list ∧
          (ws = [] ∨
           ∃ client, ws = [TagsCreateOrUpdateAtScope client (of_option resource)
                             (tags_parameters (owner_tags id email))])).
  { unfold process, bind, lift, ret.
    destruct (ignored_flags IGNORED_RESOURCES (of_option resource)) as [flags|e].
    - destruct (any flags).
      + exists []. cbn [fst]. rewrite app_nil_r. auto.
      + apply assign_owner_writes.
    - exists []. cbn [fst]. rewrite app_nil_r. auto. }
  destruct Hprocess as (ws & Hws & Hshape). exists ws.
  split.
  - destruct (process id email resource st) as [st1 [[]|e]]; exact Hws.
  - destruct Hshape as [->|[client ->]]; [now left|right].
    now exists id, email, resource, client.
Qed.

(** For an event whose email claim is present and is the empty string,
    every tag write of the handler, if there is one, carries owner_email =
    ManagedIdentity. *)
Theorem empty_email_claim_gets_sentinel (d cl : gmap string value) st :
  d !! CLAIMS_KEY = Some (VDict cl) →
  cl !! EMAIL_CLAIM_KEY = Some (VStr "") →
  owner_tags (default VNone (cl !! ID_CLAIM_KEY)) (VStr "") !! "owner_email" =
    Some (VStr "ManagedIdentity") ∧
  ∃ ws, tag_writes (calls (main (VDict d) st).1) = (tag_writes (calls st) ++ ws)%list ∧
        Forall (fun c => ∃ client scope (written : gmap string value),
                  c = TagsCreateOrUpdateAtScope client scope (tags_parameters written) ∧
                  written !! "owner_email" = Some (VStr "ManagedIdentity") ∧
                  written !! "owner_id" = Some (default VNone (cl !! ID_CLAIM_KEY))) ws.
Proof.
  intros Hclaims Hemail. split; [apply owner_tags_email|].
  destruct (main_tag_writes (VDict d) st) as (ws & Hws & Hshape).
  exists ws. split; [exact Hws|].
  destruct Hshape as [->|(id & email & resource & client & Hextract & ->)];
    [constructor|].
  repeat constructor. exists client, (of_option resource), (owner_tags id email).
  split; [reflexivity|].
  assert (id = default VNone (cl !! ID_CLAIM_KEY) ∧ email = VStr "") as [-> ->].
  { unfold extract_metadata in Hextract. revert Hextract. do 2 extract_step.
    rewrite (py_in_present cl _ _ Hemail). cbn [result_bind].
    rewrite (getitem_present cl _ _ Hemail). cbn [result_bind].
    destruct (cl !! ID_CLAIM_KEY) as [v|] eqn:Hid; repeat extract_step;
      (destruct (py_in RESOURCE_KEY (VDict d)) as [[|]|]; cbn [result_bind];
       [destruct (getitem (VDict d) RESOURCE_KEY) as [uri|]; cbn [result_bind];
        [destruct (extract_resource_path uri); cbn [result_bind]|]| |]);
      intros [= <- <- <-] || intros [=]; now split. }
  split; [apply owner_tags_email|apply owner_tags_id].
Qed.

End Main.

(** ** Runs on the small cloud *)

Import Demo.

(** The message of the provider lists 2015-05-01-preview first. *)
Example nrpf_message_version :
  extract_version_from_error_message (VStr nrpf_message) = Ok "2015-05-01-preview".
Proof. reflexivity. Qed.

(** The provider answers 400 to the default version and knows the
    resource under the first version it lists: two lookups, the second one
    with that version, and its resource is returned. *)
Lemma call_until_valid_api_retries_once_found :
  extract_version_from_error_message (VStr nrpf_message) = Ok "2015-05-01-preview" ∧
  call_until_valid_api (env := cloud_of (versioned untagged)) 2
    vm_client "G" vm_type "VM1" None (fresh (versioned untagged)) =
  (final (versioned untagged) [vm_get "2021-04-01"; vm_get "2015-05-01-preview"] [],
   Ok (Some untagged)).
Proof.
  split; [reflexivity|].
  apply (call_until_valid_api_retries_once (env := cloud_of (versioned untagged))
           0 vm_client "G" vm_type "VM1" (fresh (versioned untagged)) tt
           nrpf_text nrpf_json
           (VDict {[ "code" := VStr "NoRegisteredProviderFound";
                     "message" := VStr nrpf_message ]})
           (VStr "NoRegisteredProviderFound") (VStr nrpf_message)
           "2015-05-01-preview" tt (Ok untagged));
    first [reflexivity | discriminate].
Defined.

(** The same with a provider that rejects the listed version too: the
    second error is raised and no third lookup is made. *)
Example call_until_valid_api_retry_fails :
  call_until_valid_api (env := cloud_of rejecting) 1000
    vm_client "G" vm_type "VM1" None (fresh rejecting) =
  (final rejecting [vm_get "2021-04-01"; vm_get "2015-05-01-preview"] [],
   Raise (HttpResponseError 400 nrpf_text)).
Proof. reflexivity. Qed.

(** When the first item of the list is empty, the version extracted is the
    empty string, which counts as no version: the retry asks for the
    default version again and stays in the fallback branch. *)
Example call_until_valid_api_blank_version :
  extract_version_from_error_message (VStr blank_message) = Ok "" ∧
  call_until_valid_api (env := cloud_of blank) 4
    vm_client "G" vm_type "VM1" None (fresh blank) =
  (final blank [vm_get "2021-04-01"; vm_get "2021-04-01";
                vm_get "2021-04-01"; vm_get "2021-04-01"] [],
   Raise RecursionError).
Proof. split; reflexivity. Qed.

(** C2, on the code. A 404 answer to the first lookup is not raised:
    [call_until_valid_api] returns [None]. *)
Theorem call_until_valid_api_swallows_404 :
  call_until_valid_api (env := cloud_of missing) 1000
    vm_client "G" vm_type "VM1" None (fresh missing) =
  (final missing [vm_get "2021-04-01"] [], Ok None).
Proof. reflexivity. Qed.

(** The handler then fails on the tags of [None], and it is that
    AttributeError, not the 404, that is logged. *)
Example main_logs_attribute_error :
  main (env := cloud_of missing) user_event (fresh missing) =
  (final missing [vm_get "2021-04-01"]
     [LogError ("Error happened during runtime. With resource: " +:+ vm_path) AttributeError;
      LogInfo info_message],
   Ok tt).
Proof. reflexivity. Qed.

(** C3, on the code. On an event whose claims are [null] extraction raises
    a TypeError before [resource] is bound, and [main] ends with the
    UnboundLocalError of its own handler. *)
Theorem main_raises_unbound_local :
  extract_metadata null_claims_event = Raise TypeError ∧
  ∀ (env : Env) (st : state),
    main null_claims_event st =
    (after_log st (LogInfo info_message), Raise (UnboundLocalError "resource")).
Proof.
  split; [reflexivity|]. intros env st.
  now apply (main_extraction_raises null_claims_event TypeError).
Qed.

(** The resource already has an owner: one lookup, no write. *)
Lemma assign_owner_keeps_owner_run :
  tags owned = Some {[ "owner_id" := "0000-1111" ]} ∧
  assign_owner (env := cloud_of (current owned))
    (VStr "0000-2222") (VStr "ada@example.org") (VStr vm_path) (fresh (current owned)) =
  (final (current owned) [vm_get "2021-04-01"] [], Ok tt) ∧
  tag_writes (calls (assign_owner (env := cloud_of (current owned))
    (VStr "0000-2222") (VStr "ada@example.org") (VStr vm_path)
    (fresh (current owned))).1) = [].
Proof.
  split; [reflexivity|].
  apply (assign_owner_keeps_owner (env := cloud_of (current owned))
           (VStr "0000-2222") (VStr "ada@example.org") (VStr vm_path)
           (fresh (current owned)) vm_client "G" vm_type "VM1"
           (final (current owned) [vm_get "2021-04-01"] []) owned
           {[ "owner_id" := "0000-1111" ]});
    first [reflexivity | left; rewrite lookup_singleton_eq; eauto].
Defined.

(** The lookup returns [None] after a 404: no write. *)
Lemma assign_owner_without_resource_run :
  assign_owner (env := cloud_of missing)
    (VStr "0000-2222") (VStr "ada@example.org") (VStr vm_path) (fresh missing) =
  (final missing [vm_get "2021-04-01"] [], Raise AttributeError) ∧
  tag_writes (calls (assign_owner (env := cloud_of missing)
    (VStr "0000-2222") (VStr "ada@example.org") (VStr vm_path) (fresh missing)).1) = [].
Proof.
  apply (assign_owner_without_resource (env := cloud_of missing)
           (VStr "0000-2222") (VStr "ada@example.org") (VStr vm_path)
           (fresh missing) vm_client "G" vm_type "VM1"
           (final missing [vm_get "2021-04-01"] []));
    reflexivity.
Defined.

(** An untagged resource gets the id and the email of the creator. *)
Lemma assign_owner_tags_resource_run :
  ∃ written : gmap string value,
    assign_owner (env := cloud_of (current untagged))
      (VStr "0000-2222") (VStr "ada@example.org") (VStr vm_path) (fresh (current untagged)) =
    create_or_update_at_scope (env := cloud_of (current untagged))
      vm_client (VStr vm_path) (tags_parameters written)
      (final (current untagged) [vm_get "2021-04-01"] []) ∧
    tag_writes (calls (assign_owner (env := cloud_of (current untagged))
      (VStr "0000-2222") (VStr "ada@example.org") (VStr vm_path)
      (fresh (current untagged))).1) =
    [TagsCreateOrUpdateAtScope vm_client (VStr vm_path) (tags_parameters written)] ∧
    written !! "owner_id" = Some (VStr "0000-2222") ∧
    written !! "owner_email" = Some (VStr "ada@example.org") ∧
    dom written = {[ "owner_id"; "owner_email" ]}.
Proof.
  apply (assign_owner_tags_resource (env := cloud_of (current untagged))
           (VStr "0000-2222") (VStr "ada@example.org") (VStr vm_path)
           (fresh (current untagged)) vm_client "G" vm_type "VM1"
           (final (current untagged) [vm_get "2021-04-01"] []) untagged);
    first [reflexivity | left; reflexivity].
Defined.

(** C5 as stated fails. The email claim of this event is present, and it
    is the empty string; the owner_email written is ManagedIdentity, not
    the claim. *)
Lemma empty_email_is_replaced :
  extract_metadata nameless_event = Ok (VStr "0000-2222", VStr "", Some vm_path) ∧
  tag_writes (calls (assign_owner (env := cloud_of (current untagged))
    (VStr "0000-2222") (VStr "") (VStr vm_path) (fresh (current untagged))).1) =
  [vm_tag_write (VStr "0000-2222") (VStr "ManagedIdentity")] ∧
  VStr "ManagedIdentity" ≠ VStr "".
Proof. repeat split; [reflexivity..|discriminate]. Qed.

(** A deployment is ignored. *)
Lemma main_ignores_listed_resources_run :
  PyStr.contains "Microsoft.Resources/deployments" deployment_path = true ∧
  main (env := cloud_of (current untagged)) deployment_event (fresh (current untagged)) =
  (final (current untagged) [] [LogInfo info_message], Ok tt).
Proof.
  split; [reflexivity|].
  apply (main_ignores_listed_resources (env := cloud_of (current untagged))
           deployment_event (VStr "0000-2222") VNone deployment_path
           (fresh (current untagged)));
    first [reflexivity | left; reflexivity].
Defined.

(** C6 as stated fails. The path of this event contains
    Resources/deployments, yet the resource is looked up and tagged. *)
Lemma unlisted_deployments_are_tagged :
  extract_metadata custom_event = Ok (VStr "0000-2222", VNone, Some custom_path) ∧
  PyStr.contains "Resources/deployments" custom_path = true ∧
  calls (main (env := cloud_of (current untagged)) custom_event
           (fresh (current untagged))).1 =
  [ResourcesGet custom_client "G" "Contoso.Resources/deployments" "D1" "2021-04-01";
   TagsCreateOrUpdateAtScope custom_client (VStr custom_path)
     (tags_parameters {[ "owner_id" := VStr "0000-2222";
                         "owner_email" := VStr "ManagedIdentity" ]})].
Proof. repeat split; reflexivity. Qed.



(** An empty email claim: the write carries ManagedIdentity. *)
Lemma empty_email_claim_gets_sentinel_run :
  owner_tags (VStr "0000-2222") (VStr "") !! "owner_email" = Some (VStr "ManagedIdentity") ∧
  ∃ ws, tag_writes (calls (main (env := cloud_of (current untagged)) nameless_event
                             (fresh (current untagged))).1) = ws ∧
        Forall (fun c => ∃ client scope (written : gmap string value),
                  c = TagsCreateOrUpdateAtScope client scope (tags_parameters written) ∧
                  written !! "owner_email" = Some (VStr "ManagedIdentity") ∧
                  written !! "owner_id" = Some (VStr "0000-2222")) ws.
Proof.
  exact (empty_email_claim_gets_sentinel (env := cloud_of (current untagged))
           {[ "claims" := VDict {[ EMAIL_CLAIM_KEY := VStr "";
                                   ID_CLAIM_KEY := VStr "0000-2222" ]};
              "resourceUri" := VStr vm_path ]}
           {[ EMAIL_CLAIM_KEY := VStr ""; ID_CLAIM_KEY := VStr "0000-2222" ]}
           (fresh (current untagged)) eq_refl eq_refl).
Defined.

(** The write of that run. *)
Example empty_email_claim_run :
  tag_writes (calls (main (env := cloud_of (current untagged)) nameless_event
                       (fresh (current untagged))).1) =
  [vm_tag_write (VStr "0000-2222") (VStr "ManagedIdentity")].
Proof. reflexivity. Qed.

(** A run in which extraction succeeds and the lookup fails: [main] returns. *)
Lemma main_returns_run :
  (main (env := cloud_of missing) user_event (fresh missing)).2 = Ok tt.
Proof.
  apply (main_returns (env := cloud_of missing) user_event
           (VStr "0000-2222") (VStr "ada@example.org") (Some vm_path) (fresh missing)).
  reflexivity.
Defined.

(** A run with a write, and the lookup that came before it. *)
Lemma assign_owner_write_needs_resource_run :
  ∃ client rg rt rn st1 found,
    lookup_target (VStr vm_path) = Ok (client, rg, rt, rn) ∧
    call_until_valid_api (env := cloud_of (current untagged)) 1000 client rg rt rn None
      (fresh (current untagged)) = (st1, Ok (Some found)).
Proof.
  apply (assign_owner_write_needs_resource (env := cloud_of (current untagged))
           (VStr "0000-2222") (VStr "ada@example.org") (VStr vm_path)
           (fresh (current untagged))).
  discriminate.
Defined.

(** ** Prefixes, slices and the first occurrence *)

Module PySliceFacts.
Import PyStr PyStrFacts.

Lemma prefix_empty (s : string) : String.prefix EmptyString s = true.
Proof. now destruct s. Qed.

Lemma prefix_cons (a b : ascii) (s t : string) :
  String.prefix (String a s) (String b t) = bool_decide (a = b) && String.prefix s t.
Proof.
  cbn [String.prefix]. destruct (ascii_dec a b) as [->|Hne].
  - now rewrite bool_decide_eq_true_2.
  - now rewrite bool_decide_eq_false_2.
Qed.

Lemma prefix_refl (s : string) : String.prefix s s = true.
Proof.
  induction s as [|a s IH]; [reflexivity|].
  now rewrite prefix_cons, bool_decide_eq_true_2, IH.
Qed.

Lemma prefix_trans (s t u : string) :
  String.prefix s t = true → String.prefix t u = true → String.prefix s u = true.
Proof.
  revert t u. induction s as [|a s IH]; intros t u Hst Htu; [apply prefix_empty|].
  destruct t as [|b t]; [discriminate|]. destruct u as [|c u]; [discriminate|].
  rewrite prefix_cons in *. apply andb_true_iff in Hst as [Hab Hst].
  apply andb_true_iff in Htu as [Hbc Htu].
  apply bool_decide_eq_true in Hab, Hbc. subst.
  rewrite bool_decide_eq_true_2 by reflexivity. cbn [andb]. now apply (IH t u).
Qed.

Lemma slice_to_prefix (n : nat) (s : string) : String.prefix (slice_to n s) s = true.
Proof.
  revert s. induction n as [|n IH]; intros s; [apply prefix_empty|].
  destruct s as [|a s]; [reflexivity|].
  cbn [slice_to]. now rewrite prefix_cons, bool_decide_eq_true_2, IH.
Qed.

Lemma slice_to_length (n : nat) (s : string) :
  (n ≤ String.length s)%nat → String.length (slice_to n s) = n.
Proof.
  revert s. induction n as [|n IH]; intros s Hn; [reflexivity|].
  destruct s as [|a s]; cbn [String.length] in Hn; [lia|].
  cbn [slice_to String.length]. rewrite IH; lia.
Qed.

Lemma slice_from_all (s : string) : slice_from (String.length s) s = EmptyString.
Proof. induction s as [|a s IH]; [reflexivity|exact IH]. Qed.

(** The character at an index of a prefix is the one of the string. *)
Lemma slice_from_slice_to (k m : nat) (s : string) (c : ascii) (t : string) :
  slice_from k (slice_to m s) = String c t →
  ∃ t', slice_from k s = String c t'.
Proof.
  revert m s. induction k as [|k IH]; intros m s H.
  - destruct m as [|m]; [discriminate|]. destruct s as [|a s]; [discriminate|].
    cbn [slice_to slice_from] in H. injection H as -> _. now exists s.
  - destruct m as [|m]; [discriminate|]. destruct s as [|a s]; [discriminate|].
    cbn [slice_to slice_from] in H |- *. now apply (IH m).
Qed.

(** Where [find] reports an occurrence there is one. *)
Lemma find_occurrence (sep s : string) (n : nat) :
  find sep s = Some n →
  String.prefix sep (slice_from n s) = true ∧ (n ≤ String.length s)%nat.
Proof.
  revert n. induction s as [|a s IH]; intros n; cbn [find].
  - destruct (String.prefix sep EmptyString) eqn:Hpre; [|discriminate].
    intros [= <-]. now split.
  - destruct (String.prefix sep (String a s)) eqn:Hpre.
    + intros [= <-]. split; [exact Hpre|lia].
    + destruct (find sep s) as [m|]; [|discriminate]. intros [= <-].
      destruct (IH m eq_refl) as [Hm Hle]. split; [exact Hm|cbn [String.length]; lia].
Qed.

(** Passing a matched text. *)
Lemma split_scan_pass (sep x s : string) :
  String.prefix x s = true →
  split_scan sep (String.length x) s = split_scan sep 0 (slice_from (String.length x) s).
Proof.
  revert s. induction x as [|b x IH]; intros s Hpre; [reflexivity|].
  destruct s as [|a s]; [discriminate|].
  rewrite prefix_cons in Hpre. apply andb_true_iff in Hpre as [_ Hpre].
  cbn [String.length split_scan slice_from]. now apply IH.
Qed.

(** [s.split(sep)] by the first occurrence of [sep]. *)
Lemma split_cut (sep s : string) :
  sep ≠ EmptyString →
  split sep s =
  match find sep s with
  | None => [s]
  | Some n => slice_to n s :: split sep (slice_from (n + String.length sep) s)
  end.
Proof.
  intros Hsep. induction s as [|a s IH].
  - destruct sep; [contradiction|reflexivity].
  - cbn [find]. destruct (String.prefix sep (String a s)) eqn:Hpre.
    + unfold split. destruct sep as [|c sep]; [contradiction|].
      cbn [split_scan]. rewrite Hpre. f_equal.
      rewrite prefix_cons in Hpre. apply andb_true_iff in Hpre as [_ Hpre].
      change (String.length (String c sep) - 1) with (String.length sep - 0).
      rewrite Nat.sub_0_r. cbn [Nat.add String.length slice_from].
      now apply split_scan_pass.
    + unfold split in *. cbn [split_scan]. rewrite Hpre, IH.
      destruct (find sep s) as [n|]; reflexivity.
Qed.

(** The first segment of a split is a prefix of the string, followed by
    the end of the string or by the separator. *)
Lemma split_head (sep s : string) :
  sep ≠ EmptyString →
  ∃ seg segs,
    split sep s = seg :: segs ∧
    String.prefix seg s = true ∧
    (seg = s ∨ String.prefix sep (slice_from (String.length seg) s) = true).
Proof.
  intros Hsep. rewrite (split_cut sep s Hsep).
  destruct (find sep s) as [n|] eqn:Hfind.
  - destruct (find_occurrence sep s n Hfind) as [Hpre Hle].
    eexists _, _. split; [reflexivity|]. split; [apply slice_to_prefix|].
    right. now rewrite slice_to_length.
  - exists s, []. split; [reflexivity|]. split; [apply prefix_refl|now left].
Qed.

(** Without an occurrence of the separator the string is not cut. *)
Lemma split_none (sep s : string) :
  sep ≠ EmptyString → find sep s = None → split sep s = [s].
Proof. intros Hsep Hfind. now rewrite (split_cut sep s Hsep), Hfind. Qed.

Lemma prefix_slice_to (seg s : string) :
  String.prefix seg s = true → slice_to (String.length seg) s = seg.
Proof.
  revert s. induction seg as [|a seg IH]; intros s H; [reflexivity|].
  destruct s as [|b s]; [discriminate|].
  rewrite prefix_cons in H. apply andb_true_iff in H as [Hab H].
  apply bool_decide_eq_true in Hab as ->. cbn [String.length slice_to]. now rewrite IH.
Qed.

End PySliceFacts.

(** ** The version read from the provider's message *)

(** What [extract_version_from_error_message] returns for every message:
    an IndexError when the message lacks the marker; otherwise the text
    that starts right after the first marker, holds no comma, and ends at
    the end of the message, before a comma or before the next marker. *)
Theorem extract_version_reads_after_marker (message : string) :
  match PyStr.find VERSIONS_MARKER message with
  | None => extract_version_from_error_message (VStr message) = Raise IndexError
  | Some n =>
      ∃ version,
        extract_version_from_error_message (VStr message) = Ok version ∧
        String.prefix version
          (PyStr.slice_from (n + String.length VERSIONS_MARKER) message) = true ∧
        PyStr.contains "," version = false ∧
        (version = PyStr.slice_from (n + String.length VERSIONS_MARKER) message ∨
         String.prefix ","
           (PyStr.slice_from (String.length version)
              (PyStr.slice_from (n + String.length VERSIONS_MARKER) message)) = true ∨
         String.prefix VERSIONS_MARKER
           (PyStr.slice_from (String.length version)
              (PyStr.slice_from (n + String.length VERSIONS_MARKER) message)) = true)
  end.
Proof.
  assert (Hmarker : VERSIONS_MARKER ≠ EmptyString) by discriminate.
  assert (Hcomma : ","%string ≠ EmptyString) by discriminate.
  unfold extract_version_from_error_message, py_split. cbn [result_bind].
  change "The supported api-versions are '"%string with VERSIONS_MARKER.
  rewrite (PySliceFacts.split_cut VERSIONS_MARKER message Hmarker).
  destruct (PyStr.find VERSIONS_MARKER message) as [n|]; [|reflexivity].
  set (rest := PyStr.slice_from (n + String.length VERSIONS_MARKER) message).
  destruct (PySliceFacts.split_head VERSIONS_MARKER rest Hmarker)
    as (versions & segs & Hsplit & Hpre & Hend).
  rewrite Hsplit. change (index (_ :: versions :: segs) 1) with (Ok versions).
  cbn [result_bind].
  destruct (PySliceFacts.split_head "," versions Hcomma)
    as (version & items & Hitems & Hpre' & Hend').
  pose proof (PyStrFacts.split_char_free "," versions) as Hfree.
  rewrite Hitems in Hfree |- *. inversion Hfree as [|? ? Hversion _]; subst.
  exists version. split; [reflexivity|]. split.
  { exact (PySliceFacts.prefix_trans _ _ _ Hpre' Hpre). }
  split; [exact Hversion|].
  destruct Hend' as [->|Hnext].
  - destruct Hend as [->|Hnext]; [now left|right; right; exact Hnext].
  - right; left.
    destruct (PyStr.slice_from (String.length version) versions) as [|c t] eqn:Hat;
      [discriminate|].
    rewrite PySliceFacts.prefix_cons in Hnext.
    apply andb_true_iff in Hnext as [Hc _]. apply bool_decide_eq_true in Hc as <-.
    rewrite <- (PySliceFacts.prefix_slice_to versions rest Hpre) in Hat.
    destruct (PySliceFacts.slice_from_slice_to _ _ _ _ _ Hat) as [t' ->].
    rewrite PySliceFacts.prefix_cons, bool_decide_eq_true_2 by reflexivity.
    apply PySliceFacts.prefix_empty.
Qed.

(** Only a [str] has [split]: any other message raises AttributeError. *)
Lemma extract_version_not_str (message : value) :
  (∀ s, message ≠ VStr s) →
  extract_version_from_error_message message = Raise AttributeError.
Proof. intros H. destruct message; try reflexivity. now destruct (H s). Qed.

(** A message without the marker. *)
Lemma extract_version_no_marker (message : string) :
  PyStr.find VERSIONS_MARKER message = None →
  extract_version_from_error_message (VStr message) = Raise IndexError.
Proof.
  intros H. unfold extract_version_from_error_message, py_split. cbn [result_bind].
  change "The supported api-versions are '"%string with VERSIONS_MARKER.
  now rewrite (PySliceFacts.split_none VERSIONS_MARKER message) by (discriminate || exact H).
Qed.

(** ** More on the versioned lookup *)

Section LookupEdges.

Context {env : Env}.

Implicit Types (st : state) (client : ResourceManagementClient).

(** An empty explicit version counts as no version. *)
Lemma call_until_valid_api_empty_version depth client rg rt rn st :
  call_until_valid_api depth client rg rt rn (Some EmptyString) st =
  call_until_valid_api depth client rg rt rn None st.
Proof. destruct depth; reflexivity. Qed.

(** Every call of the lookup is a [resources.get] for the client, resource
    group, type and name it was given; there are at most as many as the
    nesting allows, and nothing is logged. *)
Theorem call_until_valid_api_same_resource depth client rg rt rn v st :
  ∃ versions : list string,
    calls (call_until_valid_api depth client rg rt rn v st).1 =
      (calls st ++ map (ResourcesGet client rg rt rn) versions)%list ∧
    (length versions ≤ depth)%nat ∧
    logs (call_until_valid_api depth client rg rt rn v st).1 = logs st.
Proof.
  revert v st. induction depth as [|depth IH]; intros v st.
  - exists []. cbn. now rewrite app_nil_r.
  - cbn [call_until_valid_api]. unfold try_except, bind, get, ret, raise, lift.
    destruct (resources_get _ _ _ _ _ _) as [w r].
    set (asked := if version_given v then default API_VERSION v else API_VERSION).
    assert (Hone : ∀ (out : result (option GenericResource)),
      ∃ versions : list string,
        calls ({| cloud := w;
                  calls := calls st ++ [ResourcesGet client rg rt rn asked];
                  logs := logs st |}, out).1 =
          (calls st ++ map (ResourcesGet client rg rt rn) versions)%list ∧
        (length versions ≤ S depth)%nat ∧
        logs ({| cloud := w;
                 calls := calls st ++ [ResourcesGet client rg rt rn asked];
                 logs := logs st |}, out).1 = logs st).
    { intros out. exists [asked]. cbn. split; [reflexivity|]. split; [lia|reflexivity]. }
    destruct r as [found|e]; [apply Hone|].
    destruct e; try apply Hone.
    destruct (version_given v); [apply Hone|].
    destruct (status_code =? 400)%Z; [|apply Hone].
    destruct (json_loads text) as [error_json|]; [|apply Hone].
    destruct (getitem error_json "error") as [err|]; [|apply Hone].
    destruct (getitem err "code") as [code|]; [|apply Hone].
    destruct (eq_str code "NoRegisteredProviderFound"); [|apply Hone].
    destruct (getitem err "message") as [message|]; [|apply Hone].
    destruct (extract_version_from_error_message message) as [version|]; [|apply Hone].
    destruct (IH (Some version)
                {| cloud := w;
                   calls := calls st ++ [ResourcesGet client rg rt rn asked];
                   logs := logs st |}) as (versions & Hcalls & Hlen & Hlogs).
    exists (asked :: versions). split; [|split; [cbn [length]; lia|exact Hlogs]].
    rewrite Hcalls. cbn [calls map]. now rewrite <- app_assoc.
Qed.

(** With an explicit, non-empty version one lookup is made, with that
    version, and its outcome is the outcome of the call: the resource, or
    the exception as it was raised. *)
Theorem call_until_valid_api_explicit_version depth client rg rt rn
    (version : string) st w outcome :
  version ≠ EmptyString →
  resources_get (cloud st) client rg rt rn version = (w, outcome) →
  call_until_valid_api (S depth) client rg rt rn (Some version) st =
  (after_get st w client rg rt rn version,
   match outcome with
   | Ok found => Ok (Some found)
   | Raise e => Raise e
   end).
Proof.
  intros Hne H. destruct outcome as [found|e].
  - rewrite (call_until_valid_api_found depth client rg rt rn (Some version) st w found);
      rewrite (asked_version_some version Hne); [reflexivity|exact H].
  - now apply call_until_valid_api_explicit.
Qed.

(** An exception of [resources.get] that is not an HttpResponseError
    leaves the function as it is, with or without a version. *)
Theorem call_until_valid_api_other_exception depth client rg rt rn v st w e :
  (∀ status text, e ≠ HttpResponseError status text) →
  resources_get (cloud st) client rg rt rn
    (if version_given v then default API_VERSION v else API_VERSION) = (w, Raise e) →
  call_until_valid_api (S depth) client rg rt rn v st =
  (after_get st w client rg rt rn
     (if version_given v then default API_VERSION v else API_VERSION), Raise e).
Proof.
  intros Hother H. cbn [call_until_valid_api]. unfold try_except, bind, get, ret, raise.
  rewrite H. destruct e; try reflexivity. now destruct (Hother status_code text).
Qed.

(** A 400 response whose body [json.loads] rejects: the exception of
    [json.loads] leaves the function, after the one lookup. *)
Theorem call_until_valid_api_bad_body depth client rg rt rn st w text e :
  resources_get (cloud st) client rg rt rn API_VERSION =
    (w, Raise (HttpResponseError 400 text)) →
  json_loads text = Raise e →
  call_until_valid_api (S depth) client rg rt rn None st =
  (after_get st w client rg rt rn API_VERSION, Raise e).
Proof.
  intros H Hloads. cbn [call_until_valid_api].
  unfold try_except, bind, get, ret, raise, lift.
  rewrite asked_version_none, H. cbn [Z.eqb Pos.eqb]. now rewrite Hloads.
Qed.

(** A NoRegisteredProviderFound response whose message does not list
    versions: the IndexError of the parsing leaves the function and no
    retry is made. *)
Theorem call_until_valid_api_no_versions depth client rg rt rn st w text
    error_json err code (message : string) :
  resources_get (cloud st) client rg rt rn API_VERSION =
    (w, Raise (HttpResponseError 400 text)) →
  json_loads text = Ok error_json →
  getitem error_json "error" = Ok err →
  getitem err "code" = Ok code →
  eq_str code "NoRegisteredProviderFound" = true →
  getitem err "message" = Ok (VStr message) →
  PyStr.find VERSIONS_MARKER message = None →
  call_until_valid_api (S depth) client rg rt rn None st =
  (after_get st w client rg rt rn API_VERSION, Raise IndexError).
Proof.
  intros H Hloads Herr Hcode Heq Hmsg Hfind. cbn [call_until_valid_api].
  unfold try_except, bind, get, ret, raise, lift.
  rewrite asked_version_none, H. cbn [Z.eqb Pos.eqb].
  rewrite Hloads, Herr, Hcode, Heq, Hmsg.
  now rewrite (extract_version_no_marker message Hfind).
Qed.

(** When the provider keeps answering NoRegisteredProviderFound with a
    message whose first listed item is empty, the version read is the
    empty string, the retry asks for the default version again, and the
    lookups go on until the nesting is used up: RecursionError. *)
Theorem call_until_valid_api_blank_loop client rg rt rn text error_json err code message :
  (∀ w : world, ∃ w',
     resources_get w client rg rt rn API_VERSION =
       (w', Raise (HttpResponseError 400 text))) →
  json_loads text = Ok error_json →
  getitem error_json "error" = Ok err →
  getitem err "code" = Ok code →
  eq_str code "NoRegisteredProviderFound" = true →
  getitem err "message" = Ok message →
  extract_version_from_error_message message = Ok EmptyString →
  ∀ depth st, ∃ st',
    call_until_valid_api depth client rg rt rn None st = (st', Raise RecursionError) ∧
    calls st' =
      (calls st ++ replicate depth (ResourcesGet client rg rt rn API_VERSION))%list ∧
    logs st' = logs st.
Proof.
  intros Hget Hloads Herr Hcode Heq Hmsg Hversion.
  induction depth as [|depth IH]; intros st.
  - exists st. cbn. now rewrite app_nil_r.
  - destruct (Hget (cloud st)) as [w' H].
    destruct (IH (after_get st w' client rg rt rn API_VERSION)) as (st' & Hrun & Hcalls & Hlogs).
    exists st'. split; [|split; [|exact Hlogs]].
    + cbn [call_until_valid_api]. unfold try_except at 1. unfold bind at 1, get at 1.
      rewrite asked_version_none, H. cbn [Z.eqb Pos.eqb].
      unfold bind, lift, ret. rewrite Hloads, Herr, Hcode, Heq, Hmsg, Hversion.
      rewrite call_until_valid_api_empty_version. exact Hrun.
    + rewrite Hcalls. unfold after_get. cbn [calls replicate]. now rewrite <- app_assoc.
Qed.

End LookupEdges.

(** ** The truncated path *)

Module PathFacts.
Import PyStr PyStrFacts PySliceFacts.

Lemma join_cons (c : ascii) (seg seg' : string) (segs : list string) :
  join (String c EmptyString) (seg :: seg' :: segs) =
  seg +:+ String c (join (String c EmptyString) (seg' :: segs)).
Proof. reflexivity. Qed.

Lemma join_push (c a : ascii) (seg : string) (segs : list string) :
  join (String c EmptyString) (String a seg :: segs) =
  String a (join (String c EmptyString) (seg :: segs)).
Proof. destruct segs; reflexivity. Qed.

(** The first [n] segments, joined again, are a prefix of the string. *)
Lemma join_take_prefix (c : ascii) (n : nat) (s : string) :
  String.prefix
    (join (String c EmptyString) (take n (split (String c EmptyString) s))) s = true.
Proof.
  revert n. induction s as [|a s IH]; intros n.
  - destruct n as [|[|n]]; reflexivity.
  - destruct n as [|n]; [apply prefix_empty|].
    rewrite split_char_step. case_bool_decide as Hca.
    + subst a. cbn [take]. specialize (IH n).
      destruct (take n (split (String c EmptyString) s)) as [|seg segs]; [reflexivity|].
      rewrite join_cons, append_empty, prefix_cons, bool_decide_eq_true_2 by reflexivity.
      exact IH.
    + pose proof (split_nonempty (String c EmptyString) s) as Hne. specialize (IH (S n)).
      destruct (split (String c EmptyString) s) as [|seg segs]; [contradiction|].
      cbn [push take] in IH |- *.
      rewrite join_push, prefix_cons, bool_decide_eq_true_2 by reflexivity.
      exact IH.
Qed.

End PathFacts.

(** [extract_resource_path] on a [str] never raises; what it returns is a
    prefix of the path, has at most nine segments, and is left unchanged
    by a second truncation. *)
Theorem extract_resource_path_truncates (path : string) :
  ∃ resource,
    extract_resource_path (VStr path) = Ok resource ∧
    String.prefix resource path = true ∧
    (length (PyStr.split "/" resource) ≤ 9)%nat ∧
    extract_resource_path (VStr resource) = Ok resource.
Proof.
  exists (PyStr.join "/" (take 9 (PyStr.split "/" path))).
  pose proof (split_extract_resource_path path _ (extract_resource_path_str path)) as Hsplit.
  split; [reflexivity|]. split; [apply (PathFacts.join_take_prefix "/" 9 path)|].
  split.
  - rewrite Hsplit, length_take. lia.
  - rewrite extract_resource_path_str, Hsplit, take_take. now rewrite Nat.min_id.
Qed.

(** Only a [str] has [split]: any other resourceUri raises AttributeError. *)
Lemma extract_resource_path_not_str (uri : value) :
  (∀ s, uri ≠ VStr s) → extract_resource_path uri = Raise AttributeError.
Proof. intros H. destruct uri; try reflexivity. now destruct (H s). Qed.

(** ** Which paths have a lookup target *)

Lemma lookup_target_short (path : string) :
  (length (PyStr.split "/" path) < 9)%nat →
  lookup_target (VStr path) = Raise IndexError.
Proof.
  intros Hlen. unfold lookup_target, extract_subscription_id, py_split, index.
  cbn [result_bind].
  assert (Hlast : PyStr.split "/" path !! 8 = None) by (apply lookup_ge_None; lia).
  destruct (PyStr.split "/" path !! 2); cbn [result_bind]; [|reflexivity].
  destruct (PyStr.split "/" path !! 4); cbn [result_bind]; [|reflexivity].
  destruct (PyStr.split "/" path !! 6); cbn [result_bind]; [|reflexivity].
  destruct (PyStr.split "/" path !! 7); cbn [result_bind]; [|reflexivity].
  now rewrite Hlast.
Qed.

Lemma lookup_target_long (path : string) :
  (9 ≤ length (PyStr.split "/" path))%nat →
  ∃ target, lookup_target (VStr path) = Ok target.
Proof.
  intros Hlen. unfold lookup_target, extract_subscription_id, py_split, index.
  cbn [result_bind].
  destruct (lookup_lt_is_Some_2 (PyStr.split "/" path) 2) as [s2 ->]; [lia|].
  destruct (lookup_lt_is_Some_2 (PyStr.split "/" path) 4) as [s4 ->]; [lia|].
  destruct (lookup_lt_is_Some_2 (PyStr.split "/" path) 6) as [s6 ->]; [lia|].
  destruct (lookup_lt_is_Some_2 (PyStr.split "/" path) 7) as [s7 ->]; [lia|].
  destruct (lookup_lt_is_Some_2 (PyStr.split "/" path) 8) as [s8 ->]; [lia|].
  cbn [result_bind]. eauto.
Qed.

(** The client and the arguments of the lookup can be derived from a path
    exactly when the path has at least nine segments; a shorter path ends
    in IndexError, a resource that is no [str] in AttributeError. *)
Theorem lookup_target_needs_nine_segments (path : string) :
  ((∃ target, lookup_target (VStr path) = Ok target) ↔
   (9 ≤ length (PyStr.split "/" path))%nat) ∧
  (lookup_target (VStr path) = Raise IndexError ↔
   (length (PyStr.split "/" path) < 9)%nat) ∧
  lookup_target VNone = Raise AttributeError.
Proof.
  destruct (Nat.lt_ge_cases (length (PyStr.split "/" path)) 9) as [Hshort|Hlong].
  - pose proof (lookup_target_short path Hshort) as H. rewrite H.
    repeat split; try (intros; lia || assumption || reflexivity).
    intros [target [=]].
  - destruct (lookup_target_long path Hlong) as [target H]. rewrite H.
    repeat split; try (intros; lia || assumption || reflexivity); eauto.
    intros [=].
Qed.

(** ** What extraction depends on, and what it rejects *)

(** Extraction reads the claims and the resourceUri of the event and
    nothing else: two event objects that agree on these two keys give the
    same result, exceptions included. *)
Theorem extract_metadata_frame (d1 d2 : gmap string value) :
  d1 !! CLAIMS_KEY = d2 !! CLAIMS_KEY →
  d1 !! RESOURCE_KEY = d2 !! RESOURCE_KEY →
  extract_metadata (VDict d1) = extract_metadata (VDict d2).
Proof.
  intros Hclaims Huri. unfold extract_metadata. cbn [py_in getitem].
  now rewrite Hclaims, Huri.
Qed.


(** An event object whose resourceUri is not a string makes extraction
    raise, whatever its claims are. *)
Lemma extract_metadata_bad_uri (d : gmap string value) (uri : value) :
  d !! RESOURCE_KEY = Some uri → (∀ s, uri ≠ VStr s) →
  ∃ e, extract_metadata (VDict d) = Raise e.
Proof.
  intros Huri Hnot. unfold extract_metadata.
  destruct (has_claims <- py_in CLAIMS_KEY (VDict d);;
            if has_claims : bool then
              authorization_claims <- getitem (VDict d) CLAIMS_KEY;;
              has_email <- py_in EMAIL_CLAIM_KEY authorization_claims;;
              email <- (if has_email : bool
                        then getitem authorization_claims EMAIL_CLAIM_KEY
                        else Ok VNone);;
              has_id <- py_in ID_CLAIM_KEY authorization_claims;;
              id <- (if has_id : bool
                     then getitem authorization_claims ID_CLAIM_KEY
                     else Ok VNone);;
              Ok (id, email)
            else Ok (VNone, VNone))%result as [[id email]|e] eqn:Hclaims.
  - exists AttributeError. revert Hclaims. cbn [py_in].
    destruct (bool_decide (is_Some (d !! CLAIMS_KEY))); cbn [result_bind].
    + destruct (getitem (VDict d) CLAIMS_KEY) as [cl|]; cbn [result_bind]; [|discriminate].
      destruct (py_in EMAIL_CLAIM_KEY cl) as [has_email|]; cbn [result_bind]; [|discriminate].
      destruct (if has_email then getitem cl EMAIL_CLAIM_KEY else Ok VNone) as [email'|];
        cbn [result_bind]; [|discriminate].
      destruct (py_in ID_CLAIM_KEY cl) as [has_id|]; cbn [result_bind]; [|discriminate].
      destruct (if has_id then getitem cl ID_CLAIM_KEY else Ok VNone) as [id'|];
        cbn [result_bind]; [|discriminate].
      intros _. rewrite bool_decide_eq_true_2 by (rewrite Huri; eauto).
      cbn [result_bind getitem]. rewrite Huri. cbn [result_bind].
      now rewrite (extract_resource_path_not_str uri Hnot).
    + intros _. rewrite bool_decide_eq_true_2 by (rewrite Huri; eauto).
      cbn [result_bind getitem]. rewrite Huri. cbn [result_bind].
      now rewrite (extract_resource_path_not_str uri Hnot).
  - exists e. revert Hclaims. cbn [py_in].
    destruct (bool_decide (is_Some (d !! CLAIMS_KEY))); cbn [result_bind]; [|discriminate].
    destruct (getitem (VDict d) CLAIMS_KEY) as [cl|]; cbn [result_bind];
      [|now intros [= ->]].
    destruct (py_in EMAIL_CLAIM_KEY cl) as [has_email|]; cbn [result_bind];
      [|now intros [= ->]].
    destruct (if has_email then getitem cl EMAIL_CLAIM_KEY else Ok VNone) as [email'|];
      cbn [result_bind]; [|now intros [= ->]].
    destruct (py_in ID_CLAIM_KEY cl) as [has_id|]; cbn [result_bind];
      [|now intros [= ->]].
    destruct (if has_id then getitem cl ID_CLAIM_KEY else Ok VNone) as [id'|];
      cbn [result_bind]; [discriminate|now intros [= ->]].
Qed.

(** ** The shape of a run *)

Section Shape.

Context {env : Env}.

Implicit Types (st : state) (client : ResourceManagementClient)
  (user_id email resource event : value).

(** A path of fewer than nine segments (a subscription, a resource group)
    ends [assign_owner] with an IndexError before the cloud is called. *)
Theorem assign_owner_short_path user_id email (path : string) st :
  (length (PyStr.split "/" path) < 9)%nat →
  assign_owner user_id email (VStr path) st = (st, Raise IndexError).
Proof.
  intros Hlen. now rewrite assign_owner_stages, (lookup_target_short path Hlen).
Qed.

(** [process] on an extracted path. *)
Lemma process_path id email (path : string) st :
  process id email (Some path) st =
  if PyStr.contains "Microsoft.Resources/deployments" path ||
     PyStr.contains "Microsoft.Resources/tags" path
  then (st, Ok tt)
  else assign_owner id email (VStr path) st.
Proof.
  unfold process, bind, lift, ret. cbn [of_option]. rewrite ignored_flags_path.
  unfold any. cbn [existsb]. rewrite orb_false_r.
  now destruct (PyStr.contains "Microsoft.Resources/deployments" path ||
                PyStr.contains "Microsoft.Resources/tags" path).
Qed.

(** An event whose extracted path has fewer than nine segments never
    reaches the cloud: it is dropped when the path is on the ignore list,
    and otherwise [main] logs the IndexError with the path and returns. *)
Theorem main_short_path event id email (path : string) st :
  extract_metadata event = Ok (id, email, Some path) →
  (length (PyStr.split "/" path) < 9)%nat →
  main event st =
  (if PyStr.contains "Microsoft.Resources/deployments" path ||
      PyStr.contains "Microsoft.Resources/tags" path
   then after_log st (LogInfo info_message)
   else after_log (after_log st (LogError (error_message (Some path)) IndexError))
          (LogInfo info_message),
   Ok tt) ∧
  calls (main event st).1 = calls st ∧
  cloud (main event st).1 = cloud st.
Proof.
  intros Hextract Hlen.
  assert (Hrun : main event st =
    (if PyStr.contains "Microsoft.Resources/deployments" path ||
        PyStr.contains "Microsoft.Resources/tags" path
     then after_log st (LogInfo info_message)
     else after_log (after_log st (LogError (error_message (Some path)) IndexError))
            (LogInfo info_message),
     Ok tt)).
  { rewrite (main_extracted event id email (Some path) st Hextract), process_path.
    destruct (PyStr.contains "Microsoft.Resources/deployments" path ||
              PyStr.contains "Microsoft.Resources/tags" path); [reflexivity|].
    now rewrite assign_owner_stages, (lookup_target_short path Hlen). }
  rewrite Hrun.
  now destruct (PyStr.contains "Microsoft.Resources/deployments" path ||
                PyStr.contains "Microsoft.Resources/tags" path).
Qed.

(** How [main] ends: it returns when extraction returned and raises the
    UnboundLocalError of its handler when extraction raised; it ends in no
    other way. *)
Theorem main_outcome event st :
  (main event st).2 =
  match extract_metadata event with
  | Ok _ => Ok tt
  | Raise _ => Raise (UnboundLocalError "resource")
  end.
Proof.
  destruct (extract_metadata event) as [[[id email] resource]|err] eqn:Hextract.
  - rewrite (main_extracted event id email resource st Hextract).
    now destruct (process id email resource st) as [st1 [[]|e]].
  - now rewrite (main_extraction_raises event err st Hextract).
Qed.

(** An event object whose resourceUri is not a string makes [main] raise:
    nothing is looked up, nothing is written, and the error record that
    the handler was about to log is not logged. *)
Theorem main_bad_uri (d : gmap string value) (uri : value) st :
  d !! RESOURCE_KEY = Some uri → (∀ s, uri ≠ VStr s) →
  main (VDict d) st =
  (after_log st (LogInfo info_message), Raise (UnboundLocalError "resource")).
Proof.
  intros Huri Hnot. destruct (extract_metadata_bad_uri d uri Huri Hnot) as [e He].
  exact (main_extraction_raises (VDict d) e st He).
Qed.


(** The calls of [assign_owner]: lookups, then at most one tag write. *)
Lemma assign_owner_calls user_id email resource st :
  ∃ gets ws,
    calls (assign_owner user_id email resource st).1 = (calls st ++ gets ++ ws)%list ∧
    Forall (fun c => is_get c = true) gets ∧
    (ws = [] ∨
     ∃ client, ws = [TagsCreateOrUpdateAtScope client resource
                       (tags_parameters (owner_tags user_id email))]).
Proof.
  rewrite assign_owner_stages.
  destruct (lookup_target resource) as [[[[client rg] rt] rn]|e].
  2:{ exists [], []. cbn. rewrite app_nil_r. auto. }
  destruct (call_until_valid_api_only_lookups recursion_limit client rg rt rn None st)
    as [_ (gets & Hgets & Hall)].
  destruct (call_until_valid_api _ _ _ _ _ _ _) as [st1 r]. cbn [fst] in Hgets.
  assert (Hquiet : ∃ gets ws,
            calls st1 = (calls st ++ gets ++ ws)%list ∧
            Forall (fun c => is_get c = true) gets ∧
            (ws = [] ∨
             ∃ client, ws = [TagsCreateOrUpdateAtScope client resource
                               (tags_parameters (owner_tags user_id email))])).
  { exists gets, []. rewrite app_nil_r. auto. }
  destruct r as [azure_resource|e]; [|exact Hquiet].
  destruct (owner_tags_absent azure_resource) as [[|]|e]; try exact Hquiet.
  exists gets, [TagsCreateOrUpdateAtScope client resource
                  (tags_parameters (owner_tags user_id email))].
  split; [|split; [exact Hall|right; now exists client]].
  unfold create_or_update_at_scope.
  destruct (tags_create_or_update_at_scope _ _ _ _) as [w r]. cbn [fst calls].
  now rewrite Hgets, <- app_assoc.
Qed.

(** The calls one event causes: lookups, then at most one tag write, made
    at the scope of the extracted path with the tags built from the
    extracted claims. *)
Theorem main_calls event st :
  ∃ gets ws,
    calls (main event st).1 = (calls st ++ gets ++ ws)%list ∧
    Forall (fun c => is_get c = true) gets ∧
    (ws = [] ∨
     ∃ id email (path : string) client,
       extract_metadata event = Ok (id, email, Some path) ∧
       ws = [TagsCreateOrUpdateAtScope client (VStr path)
               (tags_parameters (owner_tags id email))]).
Proof.
  assert (Hnone : ∀ st' : state, calls st' = calls st →
    ∃ gets ws,
      calls st' = (calls st ++ gets ++ ws)%list ∧
      Forall (fun c => is_get c = true) gets ∧
      (ws = [] ∨
       ∃ id email (path : string) client,
         extract_metadata event = Ok (id, email, Some path) ∧
         ws = [TagsCreateOrUpdateAtScope client (VStr path)
                 (tags_parameters (owner_tags id email))])).
  { intros st' ->. exists [], []. rewrite !app_nil_r. auto. }
  destruct (extract_metadata event) as [[[id email] resource]|err] eqn:Hextract.
  2:{ rewrite (main_extraction_raises event err st Hextract). now apply Hnone. }
  rewrite (main_extracted event id email resource st Hextract).
  destruct resource as [path|].
  2:{ cbn. now apply Hnone. }
  rewrite process_path.
  destruct (PyStr.contains "Microsoft.Resources/deployments" path ||
            PyStr.contains "Microsoft.Resources/tags" path); [now apply Hnone|].
  destruct (assign_owner_calls id email (VStr path) st) as (gets & ws & Hcalls & Hall & Hws).
  exists gets, ws.
  split; [|split; [exact Hall|]].
  - destruct (assign_owner id email (VStr path) st) as [st1 [[]|e]]; exact Hcalls.
  - destruct Hws as [->|[client ->]]; [now left|right]. now exists id, email, path, client.
Qed.

(** The log of one event: at most one error record, which carries the
    extracted resource, and then always the closing record. *)
Theorem main_logs event st :
  ∃ errors,
    logs (main event st).1 = (logs st ++ errors ++ [LogInfo info_message])%list ∧
    (errors = [] ∨
     ∃ id email (resource : option string) e,
       extract_metadata event = Ok (id, email, resource) ∧
       (process id email resource st).2 = Raise e ∧
       errors = [LogError (error_message resource) e]).
Proof.
  destruct (extract_metadata event) as [[[id email] resource]|err] eqn:Hextract.
  2:{ rewrite (main_extraction_raises event err st Hextract). exists [].
      unfold after_log. cbn [fst logs]. now split; [|left]. }
  rewrite (main_extracted event id email resource st Hextract).
  assert (Hquiet : logs (process id email resource st).1 = logs st).
  { unfold process, bind, lift, ret.
    destruct (ignored_flags IGNORED_RESOURCES (of_option resource)) as [flags|e];
      [|reflexivity].
    destruct (any flags); [reflexivity|]. apply assign_owner_writes. }
  destruct (process id email resource st) as [st1 [[]|e]] eqn:Hprocess;
    cbn [fst snd] in Hquiet |- *; unfold after_log; cbn [logs].
  - exists []. rewrite Hquiet. now split; [|left].
  - exists [LogError (error_message resource) e]. rewrite Hquiet, <- app_assoc.
    split; [reflexivity|right]. exists id, email, resource, e.
    now rewrite Hprocess.
Qed.


(** Tagging is idempotent against a cloud that remembers tags: once
    [assign_owner] has tagged a resource, a second [assign_owner] on the
    same resource, whoever the creator, looks the resource up once and
    returns without a write. *)
Theorem assign_owner_twice user_id email user_id' email' resource st st1 :
  remembers_tags env →
  assign_owner user_id email resource st = (st1, Ok tt) →
  tag_writes (calls st1) ≠ tag_writes (calls st) →
  ∃ st2,
    assign_owner user_id' email' resource st1 = (st2, Ok tt) ∧
    tag_writes (calls st2) = tag_writes (calls st1) ∧
    length (calls st2) = S (length (calls st1)).
Proof.
  intros Hcloud Hrun Hwrote. rewrite assign_owner_stages in Hrun |- *.
  destruct (lookup_target resource) as [[[[client rg] rt] rn]|e] eqn:Htarget;
    [|discriminate].
  pose proof (call_until_valid_api_only_lookups recursion_limit client rg rt rn None st)
    as Hlook.
  destruct (call_until_valid_api recursion_limit client rg rt rn None st)
    as [st' [azure_resource|e]] eqn:Hfirst; [|discriminate]. cbn [fst] in Hlook.
  pose proof (tag_writes_only_lookups _ _ Hlook) as Hsame.
  destruct (owner_tags_absent azure_resource) as [[|]|e]; [|congruence|discriminate].
  unfold create_or_update_at_scope in Hrun.
  destruct (tags_create_or_update_at_scope (cloud st') client resource
              (tags_parameters (owner_tags user_id email))) as [w1 r] eqn:Hwrite.
  injection Hrun as <- ->. cbn [cloud calls].
  destruct (Hcloud _ _ _ _ _ _ _ _ Hwrite Htarget) as (found & d & Hget & Htags & Hdom).
  destruct recursion_limit as [|depth] eqn:Hlimit; [discriminate|].
  erewrite (call_until_valid_api_found depth client rg rt rn None _ w1 found)
    by (rewrite asked_version_none; exact Hget).
  rewrite asked_version_none.
  rewrite (owner_tags_absent_owned found d Htags).
  - eexists. split; [reflexivity|]. unfold after_get. cbn [calls]. split.
    + unfold tag_writes. rewrite filter_app. cbn. now rewrite app_nil_r.
    + rewrite length_app. cbn. lia.
  - left. apply elem_of_dom. rewrite Hdom. unfold owner_tags.
    rewrite dom_insert_L. set_solver.
Qed.

End Shape.

(** ** More runs *)

Import Clouds.

(** An explicit version: one lookup, and the resource. *)
Lemma call_until_valid_api_explicit_version_run :
  call_until_valid_api (env := cloud_of (versioned untagged)) 1
    vm_client "G" vm_type "VM1" (Some "2015-05-01-preview") (fresh (versioned untagged)) =
  (final (versioned untagged) [vm_get "2015-05-01-preview"] [], Ok (Some untagged)).
Proof.
  apply (call_until_valid_api_explicit_version (env := cloud_of (versioned untagged))
           0 vm_client "G" vm_type "VM1" "2015-05-01-preview"
           (fresh (versioned untagged)) tt (Ok untagged));
    first [discriminate | reflexivity].
Defined.

(** A 404 is dropped. *)
Lemma call_until_valid_api_drops_status_run :
  call_until_valid_api (env := cloud_of missing) 1
    vm_client "G" vm_type "VM1" None (fresh missing) =
  (final missing [vm_get "2021-04-01"] [], Ok None).
Proof.
  apply (call_until_valid_api_drops_status (env := cloud_of missing)
           0 vm_client "G" vm_type "VM1" (fresh missing) tt 404%Z "ResourceNotFound");
    first [discriminate | reflexivity].
Defined.

(** A 400 with another error code is dropped. *)
Lemma call_until_valid_api_drops_code_run :
  call_until_valid_api (env := other_code) 1
    vm_client "G" vm_type "VM1" None (begin other_code tt) =
  (ending other_code tt [vm_get "2021-04-01"] [], Ok None).
Proof.
  apply (call_until_valid_api_drops_code (env := other_code)
           0 vm_client "G" vm_type "VM1" (begin other_code tt) tt "body"
           (error_body "InvalidApiVersionParameter" "bad version")
           (VDict {[ "code" := VStr "InvalidApiVersionParameter";
                     "message" := VStr "bad version" ]})
           (VStr "InvalidApiVersionParameter"));
    reflexivity.
Defined.

(** A failure below HTTP is raised as it is. *)
Lemma call_until_valid_api_other_exception_run :
  call_until_valid_api (env := offline) 1
    vm_client "G" vm_type "VM1" None (begin offline tt) =
  (ending offline tt [vm_get "2021-04-01"] [],
   Raise (ServiceRequestError "connection reset")).
Proof.
  apply (call_until_valid_api_other_exception (env := offline)
           0 vm_client "G" vm_type "VM1" None (begin offline tt) tt
           (ServiceRequestError "connection reset"));
    first [discriminate | reflexivity].
Defined.

(** A 400 whose body is no JSON. *)
Lemma call_until_valid_api_bad_body_run :
  call_until_valid_api (env := garbled) 1
    vm_client "G" vm_type "VM1" None (begin garbled tt) =
  (ending garbled tt [vm_get "2021-04-01"] [], Raise JSONDecodeError).
Proof.
  apply (call_until_valid_api_bad_body (env := garbled)
           0 vm_client "G" vm_type "VM1" (begin garbled tt) tt "body" JSONDecodeError);
    reflexivity.
Defined.

(** A NoRegisteredProviderFound message that lists no versions. *)
Lemma call_until_valid_api_no_versions_run :
  call_until_valid_api (env := unlisted) 1
    vm_client "G" vm_type "VM1" None (begin unlisted tt) =
  (ending unlisted tt [vm_get "2021-04-01"] [], Raise IndexError).
Proof.
  apply (call_until_valid_api_no_versions (env := unlisted)
           0 vm_client "G" vm_type "VM1" (begin unlisted tt) tt "body"
           (error_body "NoRegisteredProviderFound" "No provider.")
           (VDict {[ "code" := VStr "NoRegisteredProviderFound";
                     "message" := VStr "No provider." ]})
           (VStr "NoRegisteredProviderFound") "No provider.");
    reflexivity.
Defined.

(** The list that starts with an empty item: lookups until the nesting
    is used up. *)
Lemma call_until_valid_api_blank_loop_run :
  ∃ st',
    call_until_valid_api (env := cloud_of blank) 3
      vm_client "G" vm_type "VM1" None (fresh blank) = (st', Raise RecursionError) ∧
    calls st' = [vm_get "2021-04-01"; vm_get "2021-04-01"; vm_get "2021-04-01"] ∧
    logs st' = [].
Proof.
  apply (call_until_valid_api_blank_loop (env := cloud_of blank)
           vm_client "G" vm_type "VM1" blank_text (nrpf_parsed blank_message)
           (VDict {[ "code" := VStr "NoRegisteredProviderFound";
                     "message" := VStr blank_message ]})
           (VStr "NoRegisteredProviderFound") (VStr blank_message));
    first [reflexivity | intros []; now exists tt].
Defined.

(** Another key in the event changes nothing. *)
Lemma extract_metadata_frame_run :
  extract_metadata (VDict (<[ "subject" := VStr vm_path ]> detached_event)) =
  extract_metadata (VDict detached_event).
Proof.
  apply (extract_metadata_frame (<[ "subject" := VStr vm_path ]> detached_event)
           detached_event); reflexivity.
Defined.

(** A resource group is not looked up. *)
Lemma assign_owner_short_path_run :
  assign_owner (env := cloud_of (current untagged))
    (VStr "0000-2222") VNone (VStr group_path) (fresh (current untagged)) =
  (fresh (current untagged), Raise IndexError).
Proof.
  apply (assign_owner_short_path (env := cloud_of (current untagged))
           (VStr "0000-2222") VNone group_path (fresh (current untagged))).
  vm_compute. lia.
Defined.

Lemma main_short_path_run :
  main (env := cloud_of (current untagged)) group_event (fresh (current untagged)) =
  (final (current untagged) []
     [LogError ("Error happened during runtime. With resource: " +:+ group_path) IndexError;
      LogInfo info_message],
   Ok tt) ∧
  calls (main (env := cloud_of (current untagged)) group_event
           (fresh (current untagged))).1 = [] ∧
  cloud (main (env := cloud_of (current untagged)) group_event
           (fresh (current untagged))).1 = tt.
Proof.
  apply (main_short_path (env := cloud_of (current untagged))
           group_event (VStr "0000-2222") VNone group_path (fresh (current untagged)));
    [reflexivity | vm_compute; lia].
Defined.

(** A resourceUri that is a number. *)
Lemma main_bad_uri_run :
  main (env := cloud_of (current untagged)) (VDict {[ "resourceUri" := VInt 42 ]})
    (fresh (current untagged)) =
  (final (current untagged) [] [LogInfo info_message],
   Raise (UnboundLocalError "resource")).
Proof.
  apply (main_bad_uri (env := cloud_of (current untagged))
           {[ "resourceUri" := VInt 42 ]} (VInt 42) (fresh (current untagged)));
    first [reflexivity | discriminate].
Defined.


(** The cloud that keeps what is written remembers tags. *)
Lemma keeping_remembers_tags : remembers_tags keeping.
Proof.
  intros w w1 client scope written rg rt rn Hwrite _.
  cbn [tags_create_or_update_at_scope keeping] in Hwrite.
  assert (written_tags (tags_parameters written) = Some written) as Hparsed.
  { unfold written_tags, tags_parameters. now rewrite !lookup_singleton_eq. }
  rewrite Hparsed in Hwrite. injection Hwrite as <-.
  exists {| tags := Some (render <$> written) |}, (render <$> written).
  split; [reflexivity|]. split; [reflexivity|]. apply dom_fmap_L.
Qed.

(** Two creators, one resource: the second one writes nothing. *)
Lemma assign_owner_twice_run :
  ∃ st2,
    assign_owner (env := keeping) (VStr "0000-3333") VNone (VStr vm_path)
      (ending keeping
         (Some {[ "owner_id" := "0000-2222"; "owner_email" := "ada@example.org" ]})
         [vm_get "2021-04-01"; vm_tag_write (VStr "0000-2222") (VStr "ada@example.org")]
         []) = (st2, Ok tt) ∧
    tag_writes (calls st2) = [vm_tag_write (VStr "0000-2222") (VStr "ada@example.org")] ∧
    length (calls st2) = 3.
Proof.
  apply (assign_owner_twice (env := keeping)
           (VStr "0000-2222") (VStr "ada@example.org") (VStr "0000-3333") VNone
           (VStr vm_path) (begin keeping None)
           (ending keeping
              (Some {[ "owner_id" := "0000-2222"; "owner_email" := "ada@example.org" ]})
              [vm_get "2021-04-01"; vm_tag_write (VStr "0000-2222") (VStr "ada@example.org")]
              [])
           keeping_remembers_tags);
    first [reflexivity | discriminate].
Defined.

(** ** The first listed version *)

Module FirstListed.
Import PyStr PyStrFacts PySliceFacts.



End FirstListed.


Section FirstVersion.

Context {env : Env}.

Implicit Types (st : state) (client : ResourceManagementClient).


(** C10. For an event whose email claim is present and is the empty
    string, every tag write of the handler carries owner_email =
    ManagedIdentity; and when the resource of the event is not ignored
    and the lookup returns it without owner tags, that write is made:
    one tag write, at the scope of the resource, with owner_email =
    ManagedIdentity and owner_id the id claim. The fallback is taken for
    the empty value, not only for a missing claim. *)
Theorem empty_email_claim_writes_sentinel (d cl : gmap string value) st :
  d !! CLAIMS_KEY = Some (VDict cl) →
  cl !! EMAIL_CLAIM_KEY = Some (VStr "") →
  (∃ ws,
     tag_writes (calls (main (VDict d) st).1) = (tag_writes (calls st) ++ ws)%list ∧
     Forall (fun c => ∃ client scope (written : gmap string value),
               c = TagsCreateOrUpdateAtScope client scope (tags_parameters written) ∧
               written !! "owner_email" = Some (VStr "ManagedIdentity") ∧
               written !! "owner_id" = Some (default VNone (cl !! ID_CLAIM_KEY))) ws) ∧
  ∀ (uri : string) client rg rt rn st1 found,
    d !! RESOURCE_KEY = Some (VStr uri) →
    PyStr.contains "Microsoft.Resources/deployments"
      (PyStr.join "/" (take 9 (PyStr.split "/" uri))) = false →
    PyStr.contains "Microsoft.Resources/tags"
      (PyStr.join "/" (take 9 (PyStr.split "/" uri))) = false →
    lookup_target (VStr (PyStr.join "/" (take 9 (PyStr.split "/" uri)))) =
      Ok (client, rg, rt, rn) →
    call_until_valid_api recursion_limit client rg rt rn None st =
      (st1, Ok (Some found)) →
    tags found = None ∨
      (∃ t : gmap string string,
         tags found = Some t ∧ t !! "owner_id" = None ∧ t !! "owner_email" = None) →
    ∃ written : gmap string value,
      tag_writes (calls (main (VDict d) st).1) =
        (tag_writes (calls st) ++
         [TagsCreateOrUpdateAtScope client
            (VStr (PyStr.join "/" (take 9 (PyStr.split "/" uri))))
            (tags_parameters written)])%list ∧
      written !! "owner_email" = Some (VStr "ManagedIdentity") ∧
      written !! "owner_id" = Some (default VNone (cl !! ID_CLAIM_KEY)) ∧
      dom written = {[ "owner_id"; "owner_email" ]}.
Proof.
  intros Hclaims Hemail. split.
  { exact (proj2 (empty_email_claim_gets_sentinel d cl st Hclaims Hemail)). }
  intros uri client rg rt rn st1 found Huri Hdeployments Htags Htarget Hlookup Hfound.
  set (path := PyStr.join "/" (take 9 (PyStr.split "/" uri))) in *.
  set (id := default VNone (cl !! ID_CLAIM_KEY)).
  assert (Hextract : extract_metadata (VDict d) = Ok (id, VStr "", Some path)).
  { unfold extract_metadata. subst id.
    destruct (cl !! ID_CLAIM_KEY) as [v|] eqn:Hid; repeat extract_step; reflexivity. }
  exists (owner_tags id (VStr "")).
  split; [|split; [apply owner_tags_email|split; [apply owner_tags_id|]]].
  - rewrite (main_extracted (VDict d) id (VStr "") (Some path) st Hextract).
    rewrite process_path, Hdeployments, Htags. cbn [orb].
    assert (Habsent : owner_tags_absent (Some found) = Ok true).
    { destruct Hfound as [Hnone|(t & Ht & Hid & Hmail)].
      - now apply owner_tags_absent_untagged.
      - now apply (owner_tags_absent_lacking found t). }
    rewrite assign_owner_stages, Htarget, Hlookup, Habsent.
    pose proof (call_until_valid_api_only_lookups recursion_limit client rg rt rn None st)
      as Hlook.
    rewrite Hlookup in Hlook. cbn [fst] in Hlook.
    pose proof (tag_writes_create client (VStr path)
                  (tags_parameters (owner_tags id (VStr ""))) st1) as Hwrite.
    rewrite (tag_writes_only_lookups _ _ Hlook) in Hwrite.
    destruct (create_or_update_at_scope client (VStr path)
                (tags_parameters (owner_tags id (VStr ""))) st1) as [st2 [[]|e]];
      exact Hwrite.
  - unfold owner_tags. rewrite dom_insert_L, dom_singleton_L. reflexivity.
Qed.

End FirstVersion.

Import Demo Clouds.



(** The creator's name claim is empty and the resource has no tags: the
    resource is tagged with owner_email = ManagedIdentity. *)
Lemma empty_email_claim_writes_sentinel_run :
  ∃ written : gmap string value,
    tag_writes (calls (main (env := cloud_of (current untagged)) nameless_event
                         (fresh (current untagged))).1) =
      [TagsCreateOrUpdateAtScope vm_client (VStr vm_path) (tags_parameters written)] ∧
    written !! "owner_email" = Some (VStr "ManagedIdentity") ∧
    written !! "owner_id" = Some (VStr "0000-2222") ∧
    dom written = {[ "owner_id"; "owner_email" ]}.
Proof.
  exact (proj2 (empty_email_claim_writes_sentinel (env := cloud_of (current untagged))
           {[ "claims" := VDict {[ EMAIL_CLAIM_KEY := VStr "";
                                   ID_CLAIM_KEY := VStr "0000-2222" ]};
              "resourceUri" := VStr vm_path ]}
           {[ EMAIL_CLAIM_KEY := VStr ""; ID_CLAIM_KEY := VStr "0000-2222" ]}
           (fresh (current untagged)) eq_refl eq_refl)
           vm_path vm_client "G" vm_type "VM1"
           (final (current untagged) [vm_get "2021-04-01"] []) untagged
           eq_refl eq_refl eq_refl eq_refl eq_refl (or_introl eq_refl)).
Defined.
